(** * The conversation state machine of the medical appointments agent

    A shallow embedding of [src/agents/medical_agent.py] (class
    [MedicalAppointmentAgent]) together with the parts of
    [src/models/schemas.py] and [src/database/db_manager.py] it relies on:
    the conversation state, the two routing functions, the six nodes of the
    workflow and the completion predicate. *)

From Stdlib Require Import List NArith String Ascii Bool.
From Stdlib Require Import PeanoNat Lia.
Import ListNotations.

(** ** Python strings *)

Module PyStr.

Local Open Scope N_scope.

(** A Python [str] is a sequence of Unicode code points. *)
Definition pystr : Type := list N.

(** The source file is UTF-8; a literal denotes the decoded code points.
    A truncated sequence decodes to U+FFFD, which no literal of the
    program contains. *)
Fixpoint utf8_decode (bs : list N) : pystr :=
  match bs with
  | [] => []
  | b0 :: r0 =>
      if b0 <? 128 then b0 :: utf8_decode r0
      else
        match r0 with
        | [] => [65533]
        | b1 :: r1 =>
            if b0 <? 224 then ((b0 mod 32) * 64 + b1 mod 64) :: utf8_decode r1
            else
              match r1 with
              | [] => [65533]
              | b2 :: r2 =>
                  if b0 <? 240
                  then ((b0 mod 16) * 4096 + (b1 mod 64) * 64 + b2 mod 64)
                         :: utf8_decode r2
                  else
                    match r2 with
                    | [] => [65533]
                    | b3 :: r3 =>
                        ((b0 mod 8) * 262144 + (b1 mod 64) * 4096
                         + (b2 mod 64) * 64 + b3 mod 64) :: utf8_decode r3
                    end
              end
        end
  end.

Definition str (s : string) : pystr :=
  utf8_decode (map N_of_ascii (list_ascii_of_string s)).

(** [a == b] on strings. *)
Fixpoint eqb (a b : pystr) : bool :=
  match a, b with
  | [], [] => true
  | x :: a', y :: b' => (x =? y) && eqb a' b'
  | _, _ => false
  end.

(** [s.startswith(p)], the test behind the substring search. *)
Fixpoint startswith (s p : pystr) {struct p} : bool :=
  match p, s with
  | [], _ => true
  | _ :: _, [] => false
  | x :: p', y :: s' => (x =? y) && startswith s' p'
  end.

(** [needle in hay]: [needle] occurs in [hay] as a contiguous run. *)
Fixpoint contains (needle hay : pystr) : bool :=
  startswith hay needle
  || match hay with
     | [] => false
     | _ :: hay' => contains needle hay'
     end.

(** [x in xs] for a list of strings. *)
Definition mem (x : pystr) (xs : list pystr) : bool := existsb (eqb x) xs.

(** [sep.join(parts)]. *)
Fixpoint join (sep : pystr) (parts : list pystr) : pystr :=
  match parts with
  | [] => []
  | [p] => p
  | p :: rest => p ++ sep ++ join sep rest
  end.

(** The tables of the Unicode database that [str.lower], [str.split],
    [str.strip] and [str.isdigit] consult.  They belong to the Python
    runtime, not to the program, and are taken as parameters. *)
Class UnicodeTables : Type := {
  lower : pystr -> pystr;
  isspace : N -> bool;
  isdigit : N -> bool
}.

Section WithTables.
Context {U : UnicodeTables}.

Fixpoint lstrip (s : pystr) : pystr :=
  match s with
  | [] => []
  | c :: s' => if isspace c then lstrip s' else s
  end.

Definition rstrip (s : pystr) : pystr := rev (lstrip (rev s)).

(** [s.strip()]. *)
Definition strip (s : pystr) : pystr := rstrip (lstrip s).

(** [s.split()]: the maximal runs of non-whitespace characters;
    [word] is the run being read, in reverse. *)
Fixpoint split_from (word : pystr) (s : pystr) : list pystr :=
  match s with
  | [] => match word with [] => [] | _ => [rev word] end
  | c :: s' =>
      if isspace c
      then match word with
           | [] => split_from [] s'
           | _ => rev word :: split_from [] s'
           end
      else split_from (c :: word) s'
  end.

Definition split (s : pystr) : list pystr := split_from [] s.

(** [any(char.isdigit() for char in s)]. *)
Definition any_isdigit (s : pystr) : bool := existsb isdigit s.

End WithTables.

(** The tables restricted to ASCII, for running the program on concrete
    conversations: on ASCII text, and on lower-case accented letters, they
    agree with Python's. *)
Definition ascii_lower_char (c : N) : N :=
  if (65 <=? c) && (c <=? 90) then c + 32 else c.

Definition ascii_tables : UnicodeTables := {|
  lower := map ascii_lower_char;
  isspace := fun c => ((9 <=? c) && (c <=? 13)) || ((28 <=? c) && (c <=? 32));
  isdigit := fun c => (48 <=? c) && (c <=? 57)
|}.

End PyStr.

Import PyStr.

(** ** Python values and truth *)

(** The values that [state.get(key)] and the boolean operators of the
    routing function produce. *)
Inductive pyval : Type :=
| PNone
| PStr (s : pystr)
| PBool (b : bool).

Definition truthy (v : pyval) : bool :=
  match v with
  | PNone => false
  | PStr [] => false
  | PStr (_ :: _) => true
  | PBool b => b
  end.

(** [a and b] evaluates to [a] when [a] is falsy and to [b] otherwise. *)
Definition py_and (a b : pyval) : pyval := if truthy a then b else a.

Definition py_not (a : pyval) : pyval := PBool (negb (truthy a)).

Definition py_eq (a b : pyval) : pyval :=
  PBool match a, b with
        | PNone, PNone => true
        | PStr s, PStr t => PyStr.eqb s t
        | PBool x, PBool y => Bool.eqb x y
        | _, _ => false
        end.

Definition is_not_None (v : pyval) : bool :=
  match v with PNone => false | _ => true end.

(** ** The data model ([src/models/schemas.py]) *)

Inductive message_type : Type := HumanMessage | AIMessage | SystemMessage.

Record BaseMessage : Type := Message {
  type_ : message_type;
  content : pystr
}.

Module IdentificacionPaciente.
Record t : Type := mk {
  document_type : pystr;
  document_number : pystr
}.
End IdentificacionPaciente.

Module DatosCita.
Record t : Type := mk {
  eps : pystr;
  medical_specialty : pystr
}.
End DatosCita.

(** [AgentState] is a [TypedDict]; every key but [messages] is read with
    [state.get], under which an absent key and a key bound to [None] are the
    same: both are [None] here. *)
Record AgentState : Type := mkState {
  conversation_id : option pystr;
  intent : option pystr;
  document_type : option pystr;
  document_number : option pystr;
  eps : option pystr;
  medical_specialty : option pystr;
  messages : list BaseMessage;
  conversation_stage : option pystr
}.

(** [state.get(key)] for a string-valued key. *)
Definition get (field : option pystr) : pyval :=
  match field with
  | None => PNone
  | Some s => PStr s
  end.

(** [{**state, key: value}] for the keys the nodes rebind. *)
Definition with_intent (st : AgentState) (v : pystr) : AgentState :=
  mkState (conversation_id st) (Some v) (document_type st) (document_number st)
          (eps st) (medical_specialty st) (messages st) (conversation_stage st).

Definition with_document_type (st : AgentState) (v : pystr) : AgentState :=
  mkState (conversation_id st) (intent st) (Some v) (document_number st)
          (eps st) (medical_specialty st) (messages st) (conversation_stage st).

Definition with_document_number (st : AgentState) (v : pystr) : AgentState :=
  mkState (conversation_id st) (intent st) (document_type st) (Some v)
          (eps st) (medical_specialty st) (messages st) (conversation_stage st).

Definition with_eps (st : AgentState) (v : pystr) : AgentState :=
  mkState (conversation_id st) (intent st) (document_type st) (document_number st)
          (Some v) (medical_specialty st) (messages st) (conversation_stage st).

Definition with_medical_specialty (st : AgentState) (v : pystr) : AgentState :=
  mkState (conversation_id st) (intent st) (document_type st) (document_number st)
          (eps st) (Some v) (messages st) (conversation_stage st).

Definition with_messages (st : AgentState) (v : list BaseMessage) : AgentState :=
  mkState (conversation_id st) (intent st) (document_type st) (document_number st)
          (eps st) (medical_specialty st) v (conversation_stage st).

Definition with_conversation_stage (st : AgentState) (v : pystr) : AgentState :=
  mkState (conversation_id st) (intent st) (document_type st) (document_number st)
          (eps st) (medical_specialty st) (messages st) (Some v).

(** ** Routing *)

(** The names a routing function returns; the workflow maps each to the node
    of the same name. *)
Inductive node : Type :=
| clasificar_intencion
| procesar_saludo
| procesar_documento
| procesar_cita
| finalizar_conversacion
| manejar_otro_tema.

Definition _route_entry (state : AgentState) : node :=
  if truthy (py_not (get (intent state))) then
    clasificar_intencion
  else if truthy (py_and (py_and (get (document_number state)) (get (eps state)))
                         (get (medical_specialty state))) then
    finalizar_conversacion
  else if truthy (py_and (get (document_number state)) (py_not (get (eps state)))) then
    procesar_cita
  else if truthy (py_and (py_eq (get (intent state)) (PStr (str "agendar_cita")))
                         (py_not (get (document_number state)))) then
    procesar_documento
  else
    clasificar_intencion.

Definition _route_after_classification (state : AgentState) : node :=
  let intent := get (intent state) in
  if truthy (py_eq intent (PStr (str "saludo"))) then
    procesar_saludo
  else if truthy (py_eq intent (PStr (str "agendar_cita"))) then
    procesar_documento
  else
    manejar_otro_tema.

(** [is_conversation_complete]: each conjunct is the boolean
    [state.get(key) is not None]. *)
Definition is_conversation_complete (state : AgentState) : bool :=
  is_not_None (get (document_number state))
  && is_not_None (get (eps state))
  && is_not_None (get (medical_specialty state)).

(** ** Effects: exceptions and calls to the collaborators *)

(** The exceptions a node can meet; all are subclasses of [Exception]. *)
Inductive Exception : Type :=
| IndexError
| AttributeError
| ValidationError
| ValueError
| RuntimeError (detail : pystr).

Inductive outcome (A : Type) : Type :=
| Returned (a : A)
| Raised (e : Exception).

Arguments Returned {A} a.
Arguments Raised {A} e.

(** What a node asks of its collaborators, in the order asked. *)
Inductive call : Type :=
| llm_invoke (prompt : list BaseMessage)
| llm_structured_IdentificacionPaciente (prompt : list BaseMessage)
| llm_structured_DatosCita (prompt : list BaseMessage)
| db_save_conversation (state : AgentState).

(** A computation yields the calls it made and how it ended. *)
Definition M (A : Type) : Type := (list call * outcome A)%type.

Definition ret {A : Type} (a : A) : M A := ([], Returned a).

Definition raise {A : Type} (e : Exception) : M A := ([], Raised e).

Definition bind {A B : Type} (m : M A) (k : A -> M B) : M B :=
  match m with
  | (calls, Returned a) => let (calls', r) := k a in (calls ++ calls', r)
  | (calls, Raised e) => (calls, Raised e)
  end.

(** [try: body / except Exception as e: handler]. *)
Definition try_except {A : Type} (body : M A) (handler : Exception -> M A) : M A :=
  match body with
  | (calls, Raised e) => let (calls', r) := handler e in (calls ++ calls', r)
  | (calls, Returned a) => (calls, Returned a)
  end.

Declare Scope py_scope.
Delimit Scope py_scope with py.
Notation "x <- m ;; k" := (bind m (fun x => k))
  (at level 61, m at next level, right associativity) : py_scope.

Definition calls_of {A : Type} (m : M A) : list call := fst m.
Definition result_of {A : Type} (m : M A) : outcome A := snd m.

Definition is_llm_call (c : call) : bool :=
  match c with
  | db_save_conversation _ => false
  | _ => true
  end.

(** The text-generation client: what [invoke] answers to a prompt (the
    [content] of the response, or the exception raised), plain and through
    [with_structured_output] for each of the two schemas.  A structured
    answer that is [None] or ill-typed makes the first attribute access on
    it raise inside the caller's [try]; that is [Raised] here too. *)
Record ChatGoogleGenerativeAI : Type := {
  invoke : list BaseMessage -> outcome pystr;
  invoke_IdentificacionPaciente : list BaseMessage -> outcome IdentificacionPaciente.t;
  invoke_DatosCita : list BaseMessage -> outcome DatosCita.t
}.

(** [DatabaseManager.save_conversation] wraps its whole body in
    [try ... except Exception] and answers [True] or [False]; it never
    raises and does not touch the state it is given. *)
Record DatabaseManager : Type := {
  save_succeeds : AgentState -> bool
}.

Record MedicalAppointmentAgent : Type := {
  llm : ChatGoogleGenerativeAI;
  db_manager : DatabaseManager
}.

Definition save_conversation (self : MedicalAppointmentAgent) (state : AgentState) : M bool :=
  ([db_save_conversation state], Returned (save_succeeds (db_manager self) state)).

Definition llm_invoke_ (self : MedicalAppointmentAgent) (prompt : list BaseMessage) : M pystr :=
  ([llm_invoke prompt], invoke (llm self) prompt).

Definition structured_llm_doc (self : MedicalAppointmentAgent) (prompt : list BaseMessage)
  : M IdentificacionPaciente.t :=
  ([llm_structured_IdentificacionPaciente prompt], invoke_IdentificacionPaciente (llm self) prompt).

Definition structured_llm_cita (self : MedicalAppointmentAgent) (prompt : list BaseMessage)
  : M DatosCita.t :=
  ([llm_structured_DatosCita prompt], invoke_DatosCita (llm self) prompt).

(** [state["messages"][-1]]: [IndexError] on an empty list. *)
Definition last_message (state : AgentState) : M BaseMessage :=
  match rev (messages state) with
  | [] => raise IndexError
  | m :: _ => ret m
  end.

(** How an f-string renders the value of [state.get(key)]. *)
Definition format_value (v : pyval) : pystr :=
  match v with
  | PNone => str "None"
  | PStr s => s
  | PBool true => str "True"
  | PBool false => str "False"
  end.

(** ** The vocabularies and the fixed texts *)

Definition saludos : list pystr :=
  [str "hola"; str "buenos días"; str "buenas tardes"; str "buenas noches";
   str "hi"; str "hey"; str "saludos"].

Definition cita_keywords : list pystr :=
  [str "cita"; str "agendar"; str "reservar"; str "programar"; str "turno"; str "consulta"].

Definition afirmativas : list pystr :=
  [str "si"; str "sí"; str "claro"; str "por favor"; str "me gustaría";
   str "afirmativo"; str "dale"].

Definition keywords_sin_documento : list pystr :=
  [str "agendar"; str "cita"; str "quiero"; str "necesito"].

Definition afirmativas_simples : list pystr :=
  [str "si"; str "sí"; str "claro"; str "por favor"; str "me gustaría";
   str "afirmativo"; str "dale"].

Definition intent_labels : list pystr :=
  [str "saludo"; str "agendar_cita"; str "otro"].

Definition nl : pystr := [10%N].

Definition classification_prompt : pystr :=
  str "Analiza el siguiente mensaje del usuario. Clasifica la intención como:" ++ nl
  ++ str "- 'saludo' si es un saludo general o conversación casual" ++ nl
  ++ str "- 'agendar_cita' si menciona querer agendar una cita médica" ++ nl
  ++ str "- 'otro' para cualquier otro caso" ++ nl
  ++ str "Responde únicamente con la clasificación.".

Definition saludo_text : pystr :=
  str "¡Hola! ¡Qué gusto saludarte! 😊 "
  ++ str "Estoy aquí para ayudarte con el agendamiento de citas médicas. "
  ++ str "¿Te gustaría agendar una cita médica hoy?".

Definition solicitar_documento_text : pystr :=
  str "¡Perfecto! Para agendar tu cita médica, necesito que me proporciones "
  ++ str "tu tipo y número de documento. Por ejemplo: 'Cédula 12345678' o 'CC 12345678'".

Definition documento_prompt : pystr :=
  str "Extrae el tipo de documento (como 'Cédula', 'CC', 'Cédula de Ciudadanía', etc.) "
  ++ str "y el número de documento del siguiente texto. Si no encuentras esta información, "
  ++ str "responde con 'unknown' para ambos campos.".

Definition documento_registrado_text (extracted_data : IdentificacionPaciente.t) : pystr :=
  str "¡Perfecto! He registrado tu documento: "
  ++ IdentificacionPaciente.document_type extracted_data ++ str " "
  ++ IdentificacionPaciente.document_number extracted_data ++ str ". "
  ++ str "Ahora necesito que me indiques tu EPS y la especialidad médica que necesitas. "
  ++ str "Por ejemplo: 'Sanitas, Medicina General'".

Definition documento_no_identificado_text : pystr :=
  str "No pude identificar tu tipo y número de documento en el mensaje. "
  ++ str "¿Podrías proporcionármelo de nuevo, por favor? "
  ++ str "Por ejemplo: 'Cédula 12345678' o 'CC 12345678'".

Definition solicitar_cita_text : pystr :=
  str "Ahora necesito que me indiques tu EPS y la especialidad médica que necesitas. "
  ++ str "Por ejemplo: 'Sanitas, Medicina General'".

Definition cita_prompt : pystr :=
  str "Extrae la EPS (Entidad Promotora de Salud) y la especialidad médica del siguiente texto del usuario. "
  ++ str "Presta atención a sinónimos o frases que indiquen estos datos. "
  ++ str "Si el usuario menciona una EPS, regístrala. Si menciona una especialidad (e.g., 'dermatología', 'medicina general'), regístrala. "
  ++ str "No te limites solo al formato 'EPS, Especialidad'. Si no encuentras una de las dos, responde con 'unknown' solo para ese campo. "
  ++ str "Ejemplos de especialidades: Medicina General, Dermatología, Cardiología, Pediatría.".

Definition cita_registrada_text (state : AgentState) (extracted_data : DatosCita.t) : pystr :=
  str "¡Excelente! He registrado todos tus datos:" ++ nl
  ++ str "• Documento: " ++ format_value (get (document_type state)) ++ str " "
  ++ format_value (get (document_number state)) ++ nl
  ++ str "• EPS: " ++ DatosCita.eps extracted_data ++ nl
  ++ str "• Especialidad: " ++ DatosCita.medical_specialty extracted_data ++ nl ++ nl
  ++ str "Tu solicitud de cita médica ha sido registrada correctamente. "
  ++ str "Pronto te contactaremos para confirmar la disponibilidad. "
  ++ str "¡Gracias por usar nuestro servicio!".

Definition cita_faltante_text (request_message : pystr) : pystr :=
  request_message ++ str " ¿Podrías indicármelas nuevamente de forma clara? "
  ++ str "Por ejemplo: 'Sanitas, Dermatología' o 'Sura, Medicina General'".

Definition cita_problema_text : pystr :=
  str "Hubo un problema al procesar tu solicitud de EPS y especialidad. "
  ++ str "¿Podrías indicármelas nuevamente? "
  ++ str "Por ejemplo: 'Sanitas, Dermatología' o 'Sura, Medicina General'".

Definition otro_tema_text : pystr :=
  str "Entiendo tu consulta, pero mi especialidad es ayudarte con el agendamiento "
  ++ str "de citas médicas. ¿Te gustaría que te ayude a agendar una cita médica?".

(** ** The nodes of the workflow *)

Section Nodes.

Context {U : UnicodeTables}.
Variable self : MedicalAppointmentAgent.

Local Open Scope py_scope.

(** [state.get("conversation_stage") == "greeting"]. *)
Definition stage_is_greeting (state : AgentState) : bool :=
  truthy (py_eq (get (conversation_stage state)) (PStr (str "greeting"))).

(** [any(word in text for word in words)]. *)
Definition any_in (words : list pystr) (text : pystr) : bool :=
  existsb (fun word => contains word text) words.

Definition classification_request (last_user_message : pystr) : list BaseMessage :=
  [Message SystemMessage classification_prompt; Message HumanMessage last_user_message].

(** The [else] branch of the classification: the ambiguous message goes
    to the model, outside any [try]. *)
Definition clasificar_con_llm (last_user_message : pystr) : M pystr :=
  response <- llm_invoke_ self (classification_request last_user_message) ;;
  let llm_intent := lower (strip response) in
  if mem llm_intent intent_labels then ret llm_intent else ret (str "otro").

Definition _clasificar_intencion (state : AgentState) : M AgentState :=
  last <- last_message state ;;
  let last_user_message := lower (content last) in
  intent <-
    (if stage_is_greeting state && any_in afirmativas last_user_message then
       ret (str "agendar_cita")
     else if any_in saludos last_user_message then
       if any_in cita_keywords last_user_message then ret (str "agendar_cita")
       else ret (str "saludo")
     else if any_in cita_keywords last_user_message then
       ret (str "agendar_cita")
     else
       clasificar_con_llm last_user_message) ;;
  let new_state := with_intent state intent in
  _ <- save_conversation self new_state ;;
  ret new_state.

Definition _procesar_saludo (state : AgentState) : M AgentState :=
  let ai_message := Message AIMessage saludo_text in
  let new_state :=
    with_messages (with_conversation_stage state (str "greeting"))
                  (messages state ++ [ai_message]) in
  _ <- save_conversation self new_state ;;
  ret new_state.

(** The test that makes [_procesar_documento] ask for the document
    instead of trying to read one from the message. *)
Definition pide_documento (state : AgentState) (last_user_message : pystr) : bool :=
  let mensaje_lower := lower last_user_message in
  (stage_is_greeting state && any_in afirmativas_simples mensaje_lower)
  || (any_in keywords_sin_documento mensaje_lower && negb (any_isdigit last_user_message)).

(** The validity test on an extracted document. *)
Definition documento_valido (extracted_data : IdentificacionPaciente.t) : bool :=
  negb (PyStr.eqb (lower (IdentificacionPaciente.document_type extracted_data)) (str "unknown"))
  && negb (PyStr.eqb (lower (IdentificacionPaciente.document_number extracted_data)) (str "unknown"))
  && any_isdigit (IdentificacionPaciente.document_number extracted_data).

Definition documento_request (last_user_message : pystr) : list BaseMessage :=
  [Message SystemMessage documento_prompt;
   Message HumanMessage
     (str "Extrae tipo y número de documento de: '" ++ last_user_message ++ str "'")].

Definition _procesar_documento (state : AgentState) : M AgentState :=
  last <- last_message state ;;
  let last_user_message := content last in
  new_state <-
    (if truthy (py_not (get (document_number state))) then
       if pide_documento state last_user_message then
         let ai_message := Message AIMessage solicitar_documento_text in
         ret (with_intent
                (with_messages (with_conversation_stage state (str "requesting_document"))
                               (messages state ++ [ai_message]))
                (str "agendar_cita"))
       else
         try_except
           (extracted_data <- structured_llm_doc self (documento_request last_user_message) ;;
            if documento_valido extracted_data then
              let ai_message := Message AIMessage (documento_registrado_text extracted_data) in
              ret (with_messages
                     (with_conversation_stage
                        (with_document_number
                           (with_document_type state
                              (IdentificacionPaciente.document_type extracted_data))
                           (IdentificacionPaciente.document_number extracted_data))
                        (str "collecting_document"))
                     (messages state ++ [ai_message]))
            else
              let ai_message := Message AIMessage documento_no_identificado_text in
              ret (with_messages (with_conversation_stage state (str "requesting_document"))
                                 (messages state ++ [ai_message])))
           (fun e =>
              let ai_message := Message AIMessage documento_no_identificado_text in
              ret (with_messages (with_conversation_stage state (str "requesting_document"))
                                 (messages state ++ [ai_message])))
     else
       let ai_message := Message AIMessage solicitar_cita_text in
       ret (with_messages (with_conversation_stage state (str "requesting_appointment_data"))
                          (messages state ++ [ai_message]))) ;;
  _ <- save_conversation self new_state ;;
  ret new_state.

Definition eps_found (extracted_data : DatosCita.t) (mensaje_lower : pystr) : bool :=
  negb (PyStr.eqb (lower (DatosCita.eps extracted_data)) (str "unknown"))
  && negb (PyStr.eqb (strip (DatosCita.eps extracted_data)) (str ""))
  && any_in (split (lower (DatosCita.eps extracted_data))) mensaje_lower.

Definition specialty_found (extracted_data : DatosCita.t) (mensaje_lower : pystr) : bool :=
  negb (PyStr.eqb (lower (DatosCita.medical_specialty extracted_data)) (str "unknown"))
  && negb (PyStr.eqb (strip (DatosCita.medical_specialty extracted_data)) (str ""))
  && any_in (split (lower (DatosCita.medical_specialty extracted_data))) mensaje_lower.

Definition cita_request (last_user_message : pystr) : list BaseMessage :=
  [Message SystemMessage cita_prompt;
   Message HumanMessage (str "Texto del usuario: '" ++ last_user_message ++ str "'")].

Definition _procesar_cita (state : AgentState) : M AgentState :=
  last <- last_message state ;;
  let last_user_message := content last in
  new_state <-
    try_except
      (extracted_data <- structured_llm_cita self (cita_request last_user_message) ;;
       let mensaje_lower := lower last_user_message in
       let eps_found := eps_found extracted_data mensaje_lower in
       let specialty_found := specialty_found extracted_data mensaje_lower in
       if eps_found && specialty_found then
         let ai_message := Message AIMessage (cita_registrada_text state extracted_data) in
         ret (with_messages
                (with_conversation_stage
                   (with_medical_specialty
                      (with_eps state (DatosCita.eps extracted_data))
                      (DatosCita.medical_specialty extracted_data))
                   (str "completed"))
                (messages state ++ [ai_message]))
       else
         let missing_info :=
           (if negb eps_found then [str "tu EPS"] else [])
           ++ (if negb specialty_found then [str "la especialidad médica"] else []) in
         let request_message :=
           match missing_info with
           | _ :: _ => str "Necesito que me indiques " ++ join (str ", y ") missing_info ++ str "."
           | [] => str "No pude identificar correctamente tu EPS y especialidad médica."
           end in
         let ai_message := Message AIMessage (cita_faltante_text request_message) in
         ret (with_messages state (messages state ++ [ai_message])))
      (fun e =>
         let ai_message := Message AIMessage cita_problema_text in
         ret (with_messages state (messages state ++ [ai_message]))) ;;
  _ <- save_conversation self new_state ;;
  ret new_state.

Definition _finalizar_conversacion (state : AgentState) : M AgentState :=
  _ <- save_conversation self state ;;
  ret state.

Definition _manejar_otro_tema (state : AgentState) : M AgentState :=
  let ai_message := Message AIMessage otro_tema_text in
  let new_state := with_messages state (messages state ++ [ai_message]) in
  _ <- save_conversation self new_state ;;
  ret new_state.

End Nodes.

(** ** Concrete conversations and collaborators *)

(** The greeting [main] seeds every conversation with. *)
Definition initial_greeting : pystr :=
  str "¡Hola! Soy tu asistente virtual para el agendamiento de citas médicas. "
  ++ str "Mi función principal es ayudarte a agendar tu cita médica. "
  ++ str "¿Cómo estás hoy?".

(** A text-generation service that is down: every call raises. *)
Definition llm_down : ChatGoogleGenerativeAI := {|
  invoke := fun _ => Raised (RuntimeError (str "503 service unavailable"));
  invoke_IdentificacionPaciente := fun _ => Raised (RuntimeError (str "503 service unavailable"));
  invoke_DatosCita := fun _ => Raised (RuntimeError (str "503 service unavailable"))
|}.

(** A service that answers: the label [otro], the document [CC 1020304050]
    and an EPS the user never mentioned. *)
Definition llm_answers : ChatGoogleGenerativeAI := {|
  invoke := fun _ => Returned (str "otro");
  invoke_IdentificacionPaciente :=
    fun _ => Returned (IdentificacionPaciente.mk (str "CC") (str "1020304050"));
  invoke_DatosCita := fun _ => Returned (DatosCita.mk (str "Sanitas") (str "Dermatologia"))
|}.

Definition agent_llm_down : MedicalAppointmentAgent :=
  {| llm := llm_down; db_manager := {| save_succeeds := fun _ => true |} |}.

Definition agent_answers : MedicalAppointmentAgent :=
  {| llm := llm_answers; db_manager := {| save_succeeds := fun _ => true |} |}.

(** The state [main] builds for a first turn: only the identifier and the
    messages are bound. *)
Definition first_turn_ambiguous : AgentState :=
  mkState (Some (str "c-1")) None None None None None
          [Message AIMessage initial_greeting; Message HumanMessage (str "Que hora es")]
          None.

Definition yes_after_greeting : AgentState :=
  mkState (Some (str "c-1")) (Some (str "saludo")) None None None None
          [Message AIMessage saludo_text; Message HumanMessage (str "Dale")]
          (Some (str "greeting")).

Definition document_turn : AgentState :=
  mkState (Some (str "c-1")) (Some (str "agendar_cita")) None None None None
          [Message AIMessage solicitar_documento_text;
           Message HumanMessage (str "CC 1020304050")]
          (Some (str "requesting_document")).

(** The same turn in a state where EPS and specialty are already bound. *)
Definition document_turn_with_eps : AgentState :=
  mkState (Some (str "c-1")) (Some (str "agendar_cita")) None None
          (Some (str "Sura")) (Some (str "Cardiologia"))
          [Message AIMessage solicitar_documento_text;
           Message HumanMessage (str "CC 1020304050")]
          (Some (str "requesting_document")).

Definition appointment_turn : AgentState :=
  mkState (Some (str "c-1")) (Some (str "agendar_cita")) (Some (str "CC"))
          (Some (str "1020304050")) None None
          [Message AIMessage (documento_registrado_text
                                (IdentificacionPaciente.mk (str "CC") (str "1020304050")));
           Message HumanMessage (str "necesito dermatologia")]
          (Some (str "collecting_document")).

Definition completed_state : AgentState :=
  mkState (Some (str "c-1")) (Some (str "agendar_cita")) (Some (str "CC"))
          (Some (str "1020304050")) (Some (str "Sanitas")) (Some (str "Dermatologia"))
          [] (Some (str "greeting")).

(** A first turn that greets. *)
Definition hola_turn : AgentState :=
  mkState (Some (str "c-1")) None None None None None
          [Message AIMessage initial_greeting; Message HumanMessage (str "Hola")]
          None.

(** The turn that names the EPS and the specialty the service extracts. *)
Definition sanitas_turn : AgentState :=
  mkState (Some (str "c-1")) (Some (str "agendar_cita")) (Some (str "CC"))
          (Some (str "1020304050")) None None
          [Message HumanMessage (str "Sanitas, Dermatologia")]
          (Some (str "collecting_document")).

(** A state restored without its intent, the three data fields set. *)
Definition resumed_without_intent : AgentState :=
  mkState (Some (str "c-1")) None (Some (str "CC"))
          (Some (str "1020304050")) (Some (str "Sanitas")) (Some (str "Dermatologia"))
          [Message HumanMessage (str "hola")] (Some (str "completed")).

(** A state whose EPS is the empty string. *)
Definition empty_eps_state : AgentState :=
  mkState (Some (str "c-1")) (Some (str "agendar_cita")) (Some (str "CC"))
          (Some (str "1020304050")) (Some (str "")) (Some (str "Dermatologia"))
          [Message HumanMessage (str "hola")] (Some (str "collecting_document")).

(** ** The vocabulary of the specification *)

(** For routing, a field is set when it holds a non-empty string: [None],
    an absent key and the empty string all count as unset. *)
Definition is_set (field : option pystr) : bool :=
  match field with
  | Some (_ :: _) => true
  | _ => false
  end.

Definition intent_is (state : AgentState) (label : pystr) : bool :=
  match intent state with
  | Some s => PyStr.eqb s label
  | None => false
  end.

(** Entry routing in the words of the specification (section 4.7), to be
    compared with [_route_entry]. *)
Definition route_entry_spec (state : AgentState) : node :=
  if negb (is_set (intent state)) then
    clasificar_intencion
  else if is_set (document_number state) && is_set (eps state)
          && is_set (medical_specialty state) then
    finalizar_conversacion
  else if is_set (document_number state) && negb (is_set (eps state)) then
    procesar_cita
  else if intent_is state (str "agendar_cita") && negb (is_set (document_number state)) then
    procesar_documento
  else
    clasificar_intencion.

(** A node leaves the history in place and adds at most one agent message. *)
Definition appends_at_most_one_agent_message (before after : AgentState) : Prop :=
  messages after = messages before
  \/ exists reply, messages after = messages before ++ [Message AIMessage reply].

Section Vocabulary.

Context {U : UnicodeTables}.

(** The six nodes registered by [_build_workflow]. *)
Definition workflow_nodes (self : MedicalAppointmentAgent)
  : list (AgentState -> M AgentState) :=
  [_clasificar_intencion self; _procesar_saludo self; _procesar_documento self;
   _procesar_cita self; _finalizar_conversacion self; _manejar_otro_tema self].

(** No keyword rule applies: the classifier reaches the delegation step. *)
Definition reaches_delegation (state : AgentState) (last_user_message : pystr) : bool :=
  negb (stage_is_greeting state && any_in afirmativas last_user_message)
  && negb (any_in saludos last_user_message)
  && negb (any_in cita_keywords last_user_message).

(** The extractor's sentinel, compared without regard to case. *)
Definition is_unknown (value : pystr) : Prop := lower value = str "unknown".

(** An extraction attempt fails when the call raises, or when it answers
    a record with a field equal to the sentinel or a document number
    without any digit. *)
Definition fails_validation (d : IdentificacionPaciente.t) : Prop :=
  is_unknown (IdentificacionPaciente.document_type d)
  \/ is_unknown (IdentificacionPaciente.document_number d)
  \/ (forall c, In c (IdentificacionPaciente.document_number d) -> isdigit c = false).

Definition extraction_fails (r : outcome IdentificacionPaciente.t) : Prop :=
  match r with
  | Raised _ => True
  | Returned d => fails_validation d
  end.

(** The anti-hallucination condition of the specification on one
    extracted value, against the user's message. *)
Definition counts_as_found (value message : pystr) : Prop :=
  value <> []
  /\ ~ is_unknown value
  /\ exists token, In token (split (lower value))
                   /\ contains token (lower message) = true.

Definition shares_no_token (value message : pystr) : Prop :=
  forall token, In token (split (lower value)) -> contains token (lower message) = false.

End Vocabulary.

(** ** The workflow ([_build_workflow], [process_conversation]) *)

(** Where an edge leads: to a node, or to the end of the run. *)
Inductive destination : Type :=
| Goto (name : node)
| END.

(** The dictionary given to [set_conditional_entry_point]: the names
    [_route_entry] may answer, each bound to the node of that name. *)
Definition entry_point_mapping (name : node) : option node :=
  match name with
  | clasificar_intencion => Some clasificar_intencion
  | procesar_documento => Some procesar_documento
  | procesar_cita => Some procesar_cita
  | finalizar_conversacion => Some finalizar_conversacion
  | procesar_saludo | manejar_otro_tema => None
  end.

(** The dictionary given to [add_conditional_edges] for the classifier. *)
Definition classification_mapping (name : node) : option node :=
  match name with
  | procesar_saludo => Some procesar_saludo
  | procesar_documento => Some procesar_documento
  | manejar_otro_tema => Some manejar_otro_tema
  | clasificar_intencion | procesar_cita | finalizar_conversacion => None
  end.

(** The edge leaving a node, read on the state the node returned: the
    conditional edge after the classifier, [add_edge(name, END)] after
    every other node.  [None] when the router answers a name its
    dictionary does not hold. *)
Definition next_destination (name : node) (state : AgentState) : option destination :=
  match name with
  | clasificar_intencion =>
      option_map Goto (classification_mapping (_route_after_classification state))
  | _ => Some END
  end.

(** The number of steps after which the graph library gives a run up. *)
Definition recursion_limit : nat := 25.

Section Workflow.

Context {U : UnicodeTables}.
Variable self : MedicalAppointmentAgent.

Local Open Scope py_scope.

(** [workflow.add_node(name, method)]. *)
Definition node_action (name : node) : AgentState -> M AgentState :=
  match name with
  | clasificar_intencion => _clasificar_intencion self
  | procesar_saludo => _procesar_saludo self
  | procesar_documento => _procesar_documento self
  | procesar_cita => _procesar_cita self
  | finalizar_conversacion => _finalizar_conversacion self
  | manejar_otro_tema => _manejar_otro_tema self
  end.

(** A run of the compiled graph from one node: the node acts on the state,
    its edge is followed on the state it returned.  Every node returns the
    whole state, so the state after a step is the state returned.  A name
    missing from a dictionary and an exhausted step budget end the run
    with the library's error. *)
Fixpoint run_from (steps : nat) (name : node) (state : AgentState) : M AgentState :=
  match steps with
  | O => raise (RuntimeError (str "GraphRecursionError"))
  | S steps' =>
      state' <- node_action name state ;;
      match next_destination name state' with
      | Some END => ret state'
      | Some (Goto next) => run_from steps' next state'
      | None => raise (RuntimeError (str "KeyError"))
      end
  end.

(** [process_conversation]: [self.app.invoke(state)]. *)
Definition process_conversation (state : AgentState) : M AgentState :=
  match entry_point_mapping (_route_entry state) with
  | Some name => run_from recursion_limit name state
  | None => raise (RuntimeError (str "KeyError"))
  end.

End Workflow.

(** ** Vocabulary for the properties of nodes and turns *)

(** The last call of a computation is the save of the state it returns. *)
Definition ends_with_save (calls : list call) (returned : AgentState) : Prop :=
  exists earlier, calls = earlier ++ [db_save_conversation returned].

(** How many times the model was asked, and how many saves were made. *)
Definition llm_calls (calls : list call) : nat :=
  List.length (filter is_llm_call calls).

Definition save_calls (calls : list call) : nat :=
  List.length (filter (fun c => negb (is_llm_call c)) calls).

(** The stored label is one of the three the router understands. *)
Definition has_known_intent (state : AgentState) : Prop :=
  exists label, In label intent_labels /\ intent state = Some label.

(** ** The store ([src/database/db_manager.py]) *)

Module Db.

(** A row of table [conversations], column by column. *)
Record conversation : Type := mkConversation {
  c_id : N;
  c_conversation_id : pystr;
  c_created_at : pystr;
  c_updated_at : pystr;
  c_status : pystr;
  c_intent : option pystr;
  c_document_type : option pystr;
  c_document_number : option pystr;
  c_eps : option pystr;
  c_medical_specialty : option pystr;
  c_conversation_stage : option pystr
}.

(** A row of table [messages]. *)
Record message : Type := mkMessage {
  m_id : N;
  m_conversation_id : pystr;
  m_message_type : pystr;
  m_content : pystr;
  m_timestamp : pystr
}.

(** The database file: the two tables in rowid order, each with the
    largest id its [AUTOINCREMENT] key has given out. *)
Record database : Type := mkDatabase {
  conversations_table : list conversation;
  conversations_seq : N;
  messages_table : list message;
  messages_seq : N
}.

(** [init_database]: [CREATE TABLE IF NOT EXISTS] makes the two tables on a
    new file and leaves an existing file as it is. *)
Definition init_database (file : option database) : database :=
  match file with
  | None => mkDatabase [] 0 [] 0
  | Some db => db
  end.

(** ['completed' if state.get("eps") and state.get("medical_specialty")
    else 'active']. *)
Definition status_of (state : AgentState) : pystr :=
  if truthy (py_and (get (eps state)) (get (medical_specialty state)))
  then str "completed" else str "active".

(** ["human" if isinstance(msg, HumanMessage) else "ai"]. *)
Definition message_type_of (msg : BaseMessage) : pystr :=
  match type_ msg with
  | HumanMessage => str "human"
  | AIMessage | SystemMessage => str "ai"
  end.

(** The loop inserting the messages: one row each, ids counting up, the
    clock read once per row. *)
Fixpoint insert_messages (clock : nat -> pystr) (reading : nat) (cid : pystr)
  (last_id : N) (msgs : list BaseMessage) : list message :=
  match msgs with
  | [] => []
  | msg :: rest =>
      mkMessage (last_id + 1) cid (message_type_of msg) (content msg) (clock reading)
      :: insert_messages clock (S reading) cid (last_id + 1) rest
  end.

(** [save_conversation] on the database.  [clock] gives the successive
    readings of [datetime.now().isoformat()] during the call; [reachable]
    tells whether the file can be opened and written.  The statements run
    in one transaction: [INSERT OR REPLACE] drops the row holding the same
    [conversation_id] (the column is [UNIQUE]) and adds the new row under a
    fresh id; a [None] identifier breaks [NOT NULL].  Any exception rolls
    the transaction back and is answered with [False]. *)
Definition save_conversation (reachable : bool) (clock : nat -> pystr)
  (db : database) (state : AgentState) : database * bool :=
  if reachable then
    match conversation_id state with
    | None => (db, false)
    | Some cid =>
        let status := status_of state in
        let row :=
          mkConversation (conversations_seq db + 1) cid (clock 0%nat) (clock 1%nat) status
            (intent state) (document_type state) (document_number state)
            (eps state) (medical_specialty state) (conversation_stage state) in
        let others :=
          filter (fun c => negb (PyStr.eqb (c_conversation_id c) cid))
                 (conversations_table db) in
        let other_messages :=
          filter (fun m => negb (PyStr.eqb (m_conversation_id m) cid))
                 (messages_table db) in
        let inserted :=
          insert_messages clock 2 cid (messages_seq db) (messages state) in
        (mkDatabase (others ++ [row]) (conversations_seq db + 1)
                    (other_messages ++ inserted)
                    (messages_seq db + N.of_nat (List.length (messages state))),
         true)
    end
  else (db, false).

(** [get_conversation_by_id] on a reachable database: the first row of
    [SELECT * FROM conversations WHERE conversation_id = ?], if any. *)
Definition get_conversation_by_id (db : database) (cid : pystr) : option conversation :=
  find (fun c => PyStr.eqb (c_conversation_id c) cid) (conversations_table db).

(** The first query of [get_conversation_stats]:
    [SELECT COUNT( * ) FROM conversations]. *)
Definition total_conversations (db : database) : nat :=
  List.length (conversations_table db).

(** The messages stored for one conversation, as type and content. *)
Definition stored_messages (db : database) (cid : pystr) : list (pystr * pystr) :=
  map (fun m => (m_message_type m, m_content m))
      (filter (fun m => PyStr.eqb (m_conversation_id m) cid) (messages_table db)).

(** A stored row holds the fields of a state. *)
Definition holds (row : conversation) (state : AgentState) : Prop :=
  Some (c_conversation_id row) = conversation_id state
  /\ c_status row = status_of state
  /\ c_intent row = intent state
  /\ c_document_type row = document_type state
  /\ c_document_number row = document_number state
  /\ c_eps row = eps state
  /\ c_medical_specialty row = medical_specialty state
  /\ c_conversation_stage row = conversation_stage state.

(** The table holds at most one row per conversation. *)
Definition one_row_each (db : database) : Prop :=
  NoDup (map c_conversation_id (conversations_table db)).

End Db.

(** The saves among the calls of a node or turn, carried out in order on a
    reachable database; [clock k] is the clock during the [k]-th save. *)
Fixpoint persist_all (clock : nat -> nat -> pystr) (k : nat) (db : Db.database)
  (calls : list call) : Db.database :=
  match calls with
  | [] => db
  | db_save_conversation state :: rest =>
      persist_all clock (S k) (fst (Db.save_conversation true (clock k) db state)) rest
  | _ :: rest => persist_all clock k db rest
  end.

(** ** The command-line loop ([main] in [src/main.py]) *)

(** What an iteration of the loop shows on the terminal: one constructor
    per [print] of the loop body and of its two handlers, one per call to a
    display helper, and one for the [print] of the [except Exception] that
    encloses the loop. *)
Inductive terminal : Type :=
| print_despedida
| call_mostrar_estadisticas
| print_grafo_guardado
| call_save_graph_image
| print_escribe_algo
| print_agente (agent_response : pystr)
| print_cita_registrada (final_state : AgentState)
| print_error (e : Exception)
| print_interrumpida
| print_error_al_inicializar (e : Exception).

(** The two display helpers during one iteration: the exception each
    raises, if any ([mostrar_estadisticas] queries the database without a
    [try]). *)
Record displays : Type := {
  mostrar_estadisticas_raises : option Exception;
  save_graph_image_raises : option Exception
}.

Inductive control : Type := Break | Continue.

(** An iteration of [while True]: the calls the agent made, what was
    shown, the value of [current_state] afterwards and how the loop goes
    on. *)
Record iteration : Type := mkIteration {
  calls_made : list call;
  shown : list terminal;
  state_after : AgentState;
  control_after : control
}.

(** A display helper called last in a branch: when it raises, the
    [except Exception] of the loop prints the error and continues. *)
Definition after_display (raises : option Exception) (calls : list call)
  (shown : list terminal) (state : AgentState) (then_ : control) : iteration :=
  match raises with
  | None => mkIteration calls shown state then_
  | Some e => mkIteration calls (shown ++ [print_error e]) state Continue
  end.

(** The state [main] starts from: the identifier and the greeting. *)
Definition initial_state (conversation_id : pystr) : AgentState :=
  mkState (Some conversation_id) None None None None None
          [Message AIMessage initial_greeting] None.

Section Main.

Context {U : UnicodeTables}.
Variable self : MedicalAppointmentAgent.

(** The body of the loop on the line [typed] at the prompt, when no
    [KeyboardInterrupt] arrives while it runs: the [try] block and the
    [except Exception] handler.  The [except KeyboardInterrupt] handler is
    added by [main_iteration_on] below.
    [current_state["messages"].append(...)] changes the list of
    [current_state] itself, so the user's message is in [current_state]
    whether or not the agent then raises. *)
Definition main_iteration (env : displays) (current_state : AgentState) (typed : pystr)
  : iteration :=
  let user_input := strip typed in
  if mem (lower user_input) [str "salir"; str "exit"; str "quit"] then
    after_display (mostrar_estadisticas_raises env) []
      [print_despedida; call_mostrar_estadisticas] current_state Break
  else if PyStr.eqb (lower user_input) (str "stats") then
    after_display (mostrar_estadisticas_raises env) []
      [call_mostrar_estadisticas] current_state Continue
  else if PyStr.eqb (lower user_input) (str "grafo") then
    after_display (save_graph_image_raises env) []
      [print_grafo_guardado; call_save_graph_image] current_state Continue
  else if truthy (py_not (PStr user_input)) then
    mkIteration [] [print_escribe_algo] current_state Continue
  else
    let current_state :=
      with_messages current_state
        (messages current_state ++ [Message HumanMessage user_input]) in
    match process_conversation self current_state with
    | (calls, Raised e) => mkIteration calls [print_error e] current_state Continue
    | (calls, Returned final_state) =>
        let shown :=
          if Nat.ltb (List.length (messages current_state))
                     (List.length (messages final_state))
          then match rev (messages final_state) with
               | last :: _ => [print_agente (content last)]
               | [] => []
               end
          else [] in
        if is_conversation_complete final_state then
          after_display (mostrar_estadisticas_raises env) calls
            (shown ++ [print_cita_registrada final_state; call_mostrar_estadisticas])
            final_state Break
        else mkIteration calls shown final_state Continue
    end.

(** The loop on the lines of a session in which no [KeyboardInterrupt]
    arrives: each iteration with the state it started from, until a [break]
    or the end of the lines given.  [main_loop_on] below is the loop with
    interrupts. *)
Fixpoint main_loop (session : list (pystr * displays)) (current_state : AgentState)
  : list (AgentState * iteration) :=
  match session with
  | [] => []
  | (typed, env) :: rest =>
      let it := main_iteration env current_state typed in
      (current_state, it)
      :: match control_after it with
         | Break => []
         | Continue => main_loop rest (state_after it)
         end
  end.

(** The line is neither a command nor blank: it is sent to the agent. *)
Definition is_turn (typed : pystr) : bool :=
  let user_input := strip typed in
  negb (mem (lower user_input) [str "salir"; str "exit"; str "quit"])
  && negb (PyStr.eqb (lower user_input) (str "stats"))
  && negb (PyStr.eqb (lower user_input) (str "grafo"))
  && truthy (PStr user_input).

(** The state an iteration hands to the agent. *)
Definition with_user_message (state : AgentState) (typed : pystr) : AgentState :=
  with_messages state (messages state ++ [Message HumanMessage (strip typed)]).

(** Which value [current_state] had when a [KeyboardInterrupt] arrived in
    the [try] block: the one the iteration started with, the one after
    [current_state["messages"].append(...)], or the one after
    [current_state = final_state]. *)
Inductive reached : Type :=
| before_append
| after_append
| after_assignment.

(** How far the [try] block had got when the interrupt arrived: how many
    of the agent's calls had been made, how much had been shown, and the
    value of [current_state]. *)
Record interrupt : Type := {
  calls_done : nat;
  shown_done : nat;
  state_reached : reached
}.

(** What the keyboard does during one run of the [try] block: a line is
    typed and nothing else happens; Ctrl-C is pressed while [input] waits;
    or a line is typed and Ctrl-C is pressed while the block works on it. *)
Inductive keyboard : Type :=
| enter (typed : pystr)
| ctrl_c_at_prompt
| ctrl_c_after (typed : pystr) (at_ : interrupt).

(** What the [try] block shows: everything but the [print] of the
    [except Exception] handler. *)
Definition shown_in_try (it : iteration) : list terminal :=
  filter (fun t => match t with print_error _ => false | _ => true end) (shown it).

(** The [except KeyboardInterrupt] handler, entered with what the [try]
    block had done so far: it prints, calls [mostrar_estadisticas] and
    breaks.  When [mostrar_estadisticas] raises here, no handler of the
    loop applies: the exception leaves the loop for the [except Exception]
    around it, which prints and returns.  The loop ends either way. *)
Definition keyboard_interrupt (env : displays) (calls : list call)
  (shown : list terminal) (current_state : AgentState) : iteration :=
  mkIteration calls
    (shown ++ [print_interrumpida; call_mostrar_estadisticas]
       ++ match mostrar_estadisticas_raises env with
          | Some e => [print_error_al_inicializar e]
          | None => []
          end)
    current_state Break.

(** One run of the [try] statement of the loop, with its two handlers.
    An interrupt cuts the [try] block short: of what [main_iteration] does
    on the line, a prefix has been done. *)
Definition main_iteration_on (env : displays) (current_state : AgentState)
  (key : keyboard) : iteration :=
  match key with
  | enter typed => main_iteration env current_state typed
  | ctrl_c_at_prompt => keyboard_interrupt env [] [] current_state
  | ctrl_c_after typed at_ =>
      let body := main_iteration env current_state typed in
      keyboard_interrupt env
        (firstn (calls_done at_) (calls_made body))
        (firstn (shown_done at_) (shown_in_try body))
        match state_reached at_ with
        | before_append => current_state
        | after_append =>
            if is_turn typed then with_user_message current_state typed
            else current_state
        | after_assignment => state_after body
        end
  end.

(** The loop of [main]: each run of the [try] statement with the state it
    started from, until the loop ends or the session does. *)
Fixpoint main_loop_on (session : list (keyboard * displays)) (current_state : AgentState)
  : list (AgentState * iteration) :=
  match session with
  | [] => []
  | (key, env) :: rest =>
      let it := main_iteration_on env current_state key in
      (current_state, it)
      :: match control_after it with
         | Break => []
         | Continue => main_loop_on rest (state_after it)
         end
  end.

End Main.

(** ** The states a session reaches *)

(** The stage names the nodes write. *)
Definition known_stages : list pystr :=
  [str "greeting"; str "requesting_document"; str "collecting_document";
   str "requesting_appointment_data"; str "completed"].

(** The shape of the states met in a session: the intent is unset or one
    of the three labels; the stage is unset or one the nodes write; a
    stored document number is not empty; EPS and specialty are both unset,
    or both stored and not empty together with a document number and a
    known intent. *)
Definition well_formed (state : AgentState) : Prop :=
  (intent state = None \/ has_known_intent state)
  /\ (conversation_stage state = None
      \/ exists stage, In stage known_stages /\ conversation_stage state = Some stage)
  /\ (document_number state = None \/ is_set (document_number state) = true)
  /\ ((eps state = None /\ medical_specialty state = None)
      \/ (has_known_intent state
          /\ is_set (document_number state) = true
          /\ is_set (eps state) = true
          /\ is_set (medical_specialty state) = true)).

(** ** More concrete conversations *)

(** A first turn that greets and asks for an appointment at once. *)
Definition cita_turn : AgentState :=
  mkState (Some (str "c-1")) None None None None None
          [Message AIMessage initial_greeting;
           Message HumanMessage (str "Hola, quiero una cita")]
          None.

(** [document_turn] once the document [CC 1020304050] is stored. *)
Definition document_stored : AgentState :=
  with_messages
    (with_conversation_stage
       (with_document_number (with_document_type document_turn (str "CC"))
                             (str "1020304050"))
       (str "collecting_document"))
    (messages document_turn
     ++ [Message AIMessage
           (documento_registrado_text
              (IdentificacionPaciente.mk (str "CC") (str "1020304050")))]).

(** A second conversation, already in the store. *)
Definition other_conversation : AgentState :=
  mkState (Some (str "c-2")) (Some (str "saludo")) None None None None
          [Message AIMessage initial_greeting; Message HumanMessage (str "Hola")]
          (Some (str "greeting")).

Definition fixed_clock : nat -> pystr := fun _ => str "2025-01-01T00:00:00".

Definition store_with_other : Db.database :=
  fst (Db.save_conversation true fixed_clock (Db.init_database None) other_conversation).

(** Display helpers that do not raise. *)
Definition quiet : displays :=
  {| mostrar_estadisticas_raises := None; save_graph_image_raises := None |}.

(** Displays when the statistics query fails. *)
Definition stats_down : displays :=
  {| mostrar_estadisticas_raises := Some (RuntimeError (str "database is locked"));
     save_graph_image_raises := None |}.

(** The lines of a short session. *)
Definition short_session : list (pystr * displays) :=
  [(str "Hola", quiet); (str "stats", quiet); (str "  ", quiet);
   (str "CC 1020304050", quiet); (str "salir", quiet)].


(** ** Basic facts *)

Arguments str : simpl never.

Lemma bind_ret_l {A B : Type} (a : A) (k : A -> M B) : bind (ret a) k = k a.
Proof. unfold bind, ret. destruct (k a) as [calls r]. reflexivity. Qed.

Lemma truthy_get (field : option pystr) : truthy (get field) = is_set field.
Proof. destruct field as [[|c s]|]; reflexivity. Qed.

Lemma eqb_refl (a : pystr) : PyStr.eqb a a = true.
Proof.
  induction a as [|x a IH]; simpl; [reflexivity|].
  now rewrite N.eqb_refl, IH.
Qed.

Lemma eqb_eq (a b : pystr) : PyStr.eqb a b = true <-> a = b.
Proof.
  split; [|intros ->; apply eqb_refl].
  revert b; induction a as [|x a IH]; intros [|y b]; simpl; try discriminate; auto.
  intros H; apply andb_true_iff in H as [Hx Hab].
  apply N.eqb_eq in Hx; subst y. f_equal; auto.
Qed.

Lemma eqb_neq (a b : pystr) : PyStr.eqb a b = false <-> a <> b.
Proof.
  rewrite <- eqb_eq. destruct (PyStr.eqb a b); split; intros; congruence.
Qed.

Lemma startswith_spec (s p : pystr) :
  startswith s p = true <-> exists post, s = p ++ post.
Proof.
  revert s; induction p as [|x p IH]; intros s; simpl.
  - split; [exists s; reflexivity | reflexivity].
  - destruct s as [|y s]; simpl.
    + split; [discriminate | intros [post H]; discriminate].
    + rewrite andb_true_iff, N.eqb_eq, IH. split.
      * intros [-> [post ->]]. now exists post.
      * intros [post H]. injection H as -> ->. split; [reflexivity | now exists post].
Qed.

(** [needle in hay] holds exactly when [hay] splits around [needle]. *)
Lemma contains_spec (needle hay : pystr) :
  contains needle hay = true <-> exists pre post, hay = pre ++ needle ++ post.
Proof.
  induction hay as [|c hay IH].
  - cbn [contains]. rewrite orb_false_r, startswith_spec. split.
    + intros [post H]. now exists [], post.
    + intros [pre [post H]]. destruct pre as [|? ?]; [|discriminate].
      now exists post.
  - cbn [contains]. rewrite orb_true_iff, startswith_spec, IH. split.
    + intros [[post H] | [pre [post H]]].
      * now exists [], post.
      * exists (c :: pre), post. now rewrite H.
    + intros [[|d pre] [post H]].
      * left. now exists post.
      * right. injection H as -> ->. now exists pre, post.
Qed.

Lemma any_in_true {U : UnicodeTables} (words : list pystr) (text : pystr) :
  any_in words text = true <-> exists w, In w words /\ contains w text = true.
Proof. unfold any_in. apply existsb_exists. Qed.

Lemma any_in_false {U : UnicodeTables} (words : list pystr) (text : pystr) :
  any_in words text = false <-> forall w, In w words -> contains w text = false.
Proof.
  unfold any_in. rewrite <- not_true_iff_false, existsb_exists. split.
  - intros H w Hw. apply not_true_iff_false. intros Hc. apply H. now exists w.
  - intros H [w [Hw Hc]]. rewrite (H w Hw) in Hc. discriminate.
Qed.

Lemma any_isdigit_true {U : UnicodeTables} (s : pystr) :
  any_isdigit s = true <-> exists c, In c s /\ isdigit c = true.
Proof. unfold any_isdigit. apply existsb_exists. Qed.

Lemma strip_empty {U : UnicodeTables} : strip [] = [].
Proof. reflexivity. Qed.

Lemma last_message_snoc (state : AgentState) (history : list BaseMessage) (m : BaseMessage) :
  messages state = history ++ [m] -> last_message state = ret m.
Proof. unfold last_message. intros ->. now rewrite rev_unit. Qed.

Lemma last_message_nonempty (state : AgentState) :
  messages state <> [] -> exists m, last_message state = ret m.
Proof.
  intros H. destruct (exists_last H) as [history [m Hm]].
  exists m. now apply last_message_snoc with history.
Qed.

Lemma stage_is_greeting_true {U : UnicodeTables} (state : AgentState) :
  conversation_stage state = Some (str "greeting") -> stage_is_greeting state = true.
Proof. unfold stage_is_greeting. intros ->. cbn [get py_eq truthy]. apply eqb_refl. Qed.

(** ** Entry routing and completion *)

(** Claim C3. Entry routing is the precedence list of the specification, on
    every state: classifier when [intent] is unset; otherwise Finalize when
    document number, EPS and specialty are all set; otherwise the
    appointment-data node when the document number is set and the EPS is
    not; otherwise the document node when the intent is [agendar_cita] and
    the document number is unset; otherwise the classifier. *)
Theorem route_entry_follows_precedence (state : AgentState) :
  _route_entry state = route_entry_spec state.
Proof.
  unfold _route_entry, route_entry_spec, intent_is.
  destruct state as [cid i dt dn e ms msgs stage]; cbn [intent document_number eps
    medical_specialty].
  destruct i as [[|ci i]|], dn as [[|cn dn]|], e as [[|ce e]|], ms as [[|cm ms]|];
    try reflexivity;
    unfold py_eq, py_and, py_not; cbn [get truthy is_set negb andb];
    destruct (PyStr.eqb (ci :: i) (str "agendar_cita")); reflexivity.
Qed.

(** Claim C1, as amended. When [intent] is set and document number, EPS and
    specialty are all set, entry routing selects Finalize whatever the
    stage, the unset stage included. *)
Theorem route_entry_finalize_when_all_set
  (cid i dt dn e ms : option pystr) (msgs : list BaseMessage) (stage : option pystr) :
  is_set i = true -> is_set dn = true -> is_set e = true -> is_set ms = true ->
  _route_entry (mkState cid i dt dn e ms msgs stage) = finalizar_conversacion.
Proof.
  intros Hi Hdn He Hms. unfold _route_entry, py_and, py_not.
  cbn [intent document_number eps medical_specialty].
  rewrite !truthy_get, Hi. cbn [negb truthy].
  rewrite Hdn, truthy_get, He, truthy_get, Hms. reflexivity.
Qed.

Lemma route_entry_finalizar_inv (state : AgentState) :
  _route_entry state = finalizar_conversacion ->
  is_set (intent state) = true /\ is_set (document_number state) = true
  /\ is_set (eps state) = true /\ is_set (medical_specialty state) = true.
Proof.
  unfold _route_entry, py_eq, py_and, py_not.
  destruct state as [cid i dt dn e ms msgs stage];
    cbn [intent document_number eps medical_specialty].
  destruct i as [[|ci i]|], dn as [[|cn dn]|], e as [[|ce e]|], ms as [[|cm ms]|];
    cbn [get truthy is_set negb]; try discriminate; auto;
    destruct (PyStr.eqb (ci :: i) (str "agendar_cita")); discriminate.
Qed.

(** Claim C10. The completion predicate counts a field as set as soon as it
    is not [None]: on a state whose document number, EPS and specialty are
    all not [None], one of them being the empty string, and whose intent is
    set, the predicate answers true and yet entry routing does not select
    Finalize. *)
Theorem complete_but_not_routed_to_finalize (state : AgentState) :
  document_number state <> None ->
  eps state <> None ->
  medical_specialty state <> None ->
  document_number state = Some [] \/ eps state = Some [] \/ medical_specialty state = Some [] ->
  is_set (intent state) = true ->
  is_conversation_complete state = true
  /\ _route_entry state <> finalizar_conversacion.
Proof.
  intros Hdn He Hms Hempty _. split.
  - unfold is_conversation_complete.
    destruct (document_number state); [|congruence].
    destruct (eps state); [|congruence].
    destruct (medical_specialty state); [|congruence].
    reflexivity.
  - intros Hroute. apply route_entry_finalizar_inv in Hroute as (_ & Rdn & Re & Rms).
    destruct Hempty as [H | [H | H]]; rewrite H in *; discriminate.
Qed.

(** ** The nodes *)

Ltac run :=
  cbn [bind ret raise try_except save_conversation llm_invoke_ structured_llm_doc
       structured_llm_cita result_of calls_of fst snd].

Section NodeProperties.

Context {U : UnicodeTables}.
Variable self : MedicalAppointmentAgent.

Local Open Scope py_scope.

(** What each node can return. *)

Lemma clasificar_intencion_returned (state state' : AgentState) :
  result_of (_clasificar_intencion self state) = Returned state' ->
  exists label, state' = with_intent state label.
Proof.
  unfold _clasificar_intencion, last_message.
  destruct (rev (messages state)) as [|last _]; run; [discriminate|].
  set (text := lower (content last)).
  destruct (stage_is_greeting state && any_in afirmativas text);
    [run; intros [= <-]; eauto|].
  destruct (any_in saludos text).
  { destruct (any_in cita_keywords text); run; intros [= <-]; eauto. }
  destruct (any_in cita_keywords text); [run; intros [= <-]; eauto|].
  unfold clasificar_con_llm; run.
  destruct (invoke (llm self) _) as [response|e]; run; [|discriminate].
  destruct (mem _ intent_labels); run; intros [= <-]; eauto.
Qed.

Lemma procesar_documento_returned (state state' : AgentState) :
  result_of (_procesar_documento self state) = Returned state' ->
  exists reply, messages state' = messages state ++ [Message AIMessage reply].
Proof.
  unfold _procesar_documento, last_message.
  destruct (rev (messages state)) as [|last _]; run; [discriminate|].
  destruct (truthy (py_not (get (document_number state))));
    [|run; intros [= <-]; eexists; reflexivity].
  destruct (pide_documento state (content last));
    [run; intros [= <-]; eexists; reflexivity|].
  run. destruct (invoke_IdentificacionPaciente (llm self) _) as [d|e]; run;
    [|intros [= <-]; eexists; reflexivity].
  destruct (documento_valido d); run; intros [= <-]; eexists; reflexivity.
Qed.

Lemma procesar_cita_returned (state state' : AgentState) :
  result_of (_procesar_cita self state) = Returned state' ->
  exists reply, messages state' = messages state ++ [Message AIMessage reply].
Proof.
  unfold _procesar_cita, last_message.
  destruct (rev (messages state)) as [|last _]; run; [discriminate|].
  destruct (invoke_DatosCita (llm self) _) as [d|e]; run;
    [|intros [= <-]; eexists; reflexivity].
  destruct (eps_found d _ && specialty_found d _); run;
    intros [= <-]; eexists; reflexivity.
Qed.

(** When each node returns. *)

Lemma clasificar_intencion_returns (state : AgentState) :
  messages state <> [] ->
  (forall prompt, exists response, invoke (llm self) prompt = Returned response) ->
  exists state', result_of (_clasificar_intencion self state) = Returned state'.
Proof.
  intros Hne Hllm. destruct (last_message_nonempty state Hne) as [last Hlast].
  unfold _clasificar_intencion. rewrite Hlast; run.
  set (text := lower (content last)).
  destruct (stage_is_greeting state && any_in afirmativas text); [run; eauto|].
  destruct (any_in saludos text).
  { destruct (any_in cita_keywords text); run; eauto. }
  destruct (any_in cita_keywords text); [run; eauto|].
  unfold clasificar_con_llm; run.
  destruct (Hllm (classification_request text))
    as [response ->]; run.
  destruct (mem _ intent_labels); run; eauto.
Qed.

Lemma procesar_documento_returns (state : AgentState) :
  messages state <> [] ->
  exists state', result_of (_procesar_documento self state) = Returned state'.
Proof.
  intros Hne. destruct (last_message_nonempty state Hne) as [last Hlast].
  unfold _procesar_documento. rewrite Hlast; run.
  destruct (truthy (py_not (get (document_number state)))); [|run; eauto].
  destruct (pide_documento state (content last)); [run; eauto|].
  run. destruct (invoke_IdentificacionPaciente (llm self) _) as [d|e]; run; [|eauto].
  destruct (documento_valido d); run; eauto.
Qed.

Lemma procesar_cita_returns (state : AgentState) :
  messages state <> [] ->
  exists state', result_of (_procesar_cita self state) = Returned state'.
Proof.
  intros Hne. destruct (last_message_nonempty state Hne) as [last Hlast].
  unfold _procesar_cita. rewrite Hlast; run.
  destruct (invoke_DatosCita (llm self) _) as [d|e]; run; [|eauto].
  destruct (eps_found d _ && specialty_found d _); run; eauto.
Qed.

(** Claim C8. The Finalize node is the identity on the conversation
    state: it returns the state it was given, so intent, document type
    and number, EPS, specialty, stage and messages are unchanged, and
    running it twice returns what running it once returns. *)
Theorem finalizar_conversacion_identity (state : AgentState) :
  exists state',
    result_of (_finalizar_conversacion self state) = Returned state'
    /\ state' = state
    /\ intent state' = intent state
    /\ document_type state' = document_type state
    /\ document_number state' = document_number state
    /\ eps state' = eps state
    /\ medical_specialty state' = medical_specialty state
    /\ conversation_stage state' = conversation_stage state
    /\ messages state' = messages state
    /\ result_of (once <- _finalizar_conversacion self state ;;
                  _finalizar_conversacion self once)
       = result_of (_finalizar_conversacion self state).
Proof.
  exists state. unfold _finalizar_conversacion; run. repeat split.
Qed.

(** Claim C9. Each of the six nodes keeps the message list as a prefix of
    its output: the state it returns holds the input messages followed by
    no message or by exactly one agent message.  A node returns whenever
    the history is not empty and the classification call does not raise. *)
Theorem nodes_append_at_most_one_agent_message
  (handler : AgentState -> M AgentState) (state : AgentState) :
  In handler (workflow_nodes self) ->
  (forall state', result_of (handler state) = Returned state' ->
                  appends_at_most_one_agent_message state state')
  /\ (messages state <> [] ->
      (forall prompt, exists response, invoke (llm self) prompt = Returned response) ->
      exists state', result_of (handler state) = Returned state').
Proof.
  unfold workflow_nodes, appends_at_most_one_agent_message.
  intros [<- | [<- | [<- | [<- | [<- | [<- | []]]]]]]; split.
  - intros state' H. apply clasificar_intencion_returned in H as [label ->].
    left; reflexivity.
  - apply clasificar_intencion_returns.
  - unfold _procesar_saludo; run. intros state' [= <-]. right; eexists; reflexivity.
  - unfold _procesar_saludo; run. eauto.
  - intros state' H. right. now apply procesar_documento_returned.
  - intros Hne _. now apply procesar_documento_returns.
  - intros state' H. right. now apply procesar_cita_returned.
  - intros Hne _. now apply procesar_cita_returns.
  - unfold _finalizar_conversacion; run. intros state' [= <-]. left; reflexivity.
  - unfold _finalizar_conversacion; run. eauto.
  - unfold _manejar_otro_tema; run. intros state' [= <-]. right; eexists; reflexivity.
  - unfold _manejar_otro_tema; run. eauto.
Qed.

End NodeProperties.

Section Classification.

Context {U : UnicodeTables}.
Variable self : MedicalAppointmentAgent.

Local Open Scope py_scope.

Lemma clasificar_intencion_delegates
  (state : AgentState) (history : list BaseMessage) (last : BaseMessage) :
  messages state = history ++ [last] ->
  reaches_delegation state (lower (content last)) = true ->
  _clasificar_intencion self state
  = (label <- clasificar_con_llm self (lower (content last)) ;;
     _ <- save_conversation self (with_intent state label) ;;
     ret (with_intent state label)).
Proof.
  intros Hlast Hreach. unfold _clasificar_intencion.
  rewrite (last_message_snoc state history last Hlast).
  unfold reaches_delegation in Hreach.
  apply andb_true_iff in Hreach as [Hreach Hcita].
  apply andb_true_iff in Hreach as [Hafirm Hsaludo].
  apply negb_true_iff in Hcita, Hafirm, Hsaludo.
  rewrite bind_ret_l, Hafirm, Hsaludo, Hcita. reflexivity.
Qed.

(** The part of the fail-soft rule the classifier does implement: a label
    outside the three, after [strip] and [lower], becomes [otro]. *)
Lemma clasificar_intencion_unknown_label
  (state : AgentState) (history : list BaseMessage) (last : BaseMessage) (response : pystr) :
  messages state = history ++ [last] ->
  reaches_delegation state (lower (content last)) = true ->
  invoke (llm self) (classification_request (lower (content last))) = Returned response ->
  mem (lower (strip response)) intent_labels = false ->
  result_of (_clasificar_intencion self state) = Returned (with_intent state (str "otro")).
Proof.
  intros Hlast Hreach Hllm Hlabel.
  rewrite (clasificar_intencion_delegates state history last Hlast Hreach).
  unfold clasificar_con_llm, classification_request in *; run.
  rewrite Hllm; run. rewrite Hlabel; run. reflexivity.
Qed.

(** Claim C2, at the failing inputs. When no keyword rule applies and the
    classification call raises, [_clasificar_intencion] ends with that
    exception: the call is made outside any [try], no state is returned
    and nothing is saved. *)
Theorem clasificar_intencion_propagates_llm_exception
  (state : AgentState) (history : list BaseMessage) (last : BaseMessage) (e : Exception) :
  messages state = history ++ [last] ->
  reaches_delegation state (lower (content last)) = true ->
  invoke (llm self) (classification_request (lower (content last))) = Raised e ->
  _clasificar_intencion self state
  = ([llm_invoke (classification_request (lower (content last)))], Raised e).
Proof.
  intros Hlast Hreach Hllm.
  rewrite (clasificar_intencion_delegates state history last Hlast Hreach).
  unfold clasificar_con_llm, classification_request in *; run.
  rewrite Hllm; run. reflexivity.
Qed.


End Classification.

Section Extraction.

Context {U : UnicodeTables}.
Variable self : MedicalAppointmentAgent.

Local Open Scope py_scope.

Lemma fails_validation_not_valid (d : IdentificacionPaciente.t) :
  fails_validation d -> documento_valido d = false.
Proof.
  unfold fails_validation, is_unknown, documento_valido.
  intros [H | [H | H]].
  - rewrite H, eqb_refl. reflexivity.
  - rewrite H, eqb_refl. cbn [negb]. now rewrite andb_false_r.
  - assert (Hd : any_isdigit (IdentificacionPaciente.document_number d) = false).
    { unfold any_isdigit. apply not_true_iff_false. intros Hex.
      apply existsb_exists in Hex as [c [Hin Hc]]. rewrite (H c Hin) in Hc. discriminate. }
    rewrite Hd. apply andb_false_r.
Qed.

Lemma found_counts (value message : pystr) :
  negb (PyStr.eqb (lower value) (str "unknown"))
  && negb (PyStr.eqb (strip value) (str ""))
  && any_in (split (lower value)) (lower message) = true ->
  counts_as_found value message.
Proof.
  intros H. apply andb_true_iff in H as [H Htoken].
  apply andb_true_iff in H as [Hunknown Hstrip].
  apply negb_true_iff in Hunknown, Hstrip.
  apply eqb_neq in Hunknown, Hstrip.
  repeat split.
  - intros ->. apply Hstrip. reflexivity.
  - exact Hunknown.
  - now apply any_in_true.
Qed.

(** Claim C5. With the document number unset, when [_procesar_documento]
    tries the extraction and the attempt raises or fails validation, the
    node returns normally: document type and number are as before, the
    stage is [requesting_document] and the reply asking to send the
    document again is appended. *)
Theorem procesar_documento_failed_extraction
  (state : AgentState) (history : list BaseMessage) (last : BaseMessage) :
  messages state = history ++ [last] ->
  is_set (document_number state) = false ->
  pide_documento state (content last) = false ->
  extraction_fails (invoke_IdentificacionPaciente (llm self) (documento_request (content last))) ->
  exists state',
    result_of (_procesar_documento self state) = Returned state'
    /\ document_type state' = document_type state
    /\ document_number state' = document_number state
    /\ conversation_stage state' = Some (str "requesting_document")
    /\ messages state'
       = messages state ++ [Message AIMessage documento_no_identificado_text].
Proof.
  intros Hlast Hdn Hpide Hfails.
  unfold _procesar_documento.
  rewrite (last_message_snoc state history last Hlast), bind_ret_l.
  unfold py_not. rewrite truthy_get, Hdn. cbn [negb truthy]. rewrite Hpide.
  run. destruct (invoke_IdentificacionPaciente (llm self) _) as [d|e];
    cbn [extraction_fails] in Hfails; run.
  - rewrite (fails_validation_not_valid d Hfails); run.
    eexists; repeat split.
  - eexists; repeat split.
Qed.

(** Claim C6. With the document number unset, when the extraction is
    tried and answers a type and a number that are not the sentinel, the
    number holding a digit, [_procesar_documento] stores both, sets the
    stage to [collecting_document] and appends the confirming reply,
    whatever the other fields hold; these it leaves as they were.  If EPS
    and specialty were unset, the conversation is still not complete. *)
Theorem procesar_documento_successful_extraction
  (state : AgentState) (history : list BaseMessage) (last : BaseMessage)
  (d : IdentificacionPaciente.t) :
  messages state = history ++ [last] ->
  is_set (document_number state) = false ->
  pide_documento state (content last) = false ->
  invoke_IdentificacionPaciente (llm self) (documento_request (content last)) = Returned d ->
  ~ is_unknown (IdentificacionPaciente.document_type d) ->
  ~ is_unknown (IdentificacionPaciente.document_number d) ->
  (exists c, In c (IdentificacionPaciente.document_number d) /\ isdigit c = true) ->
  exists state',
    result_of (_procesar_documento self state) = Returned state'
    /\ document_type state' = Some (IdentificacionPaciente.document_type d)
    /\ document_number state' = Some (IdentificacionPaciente.document_number d)
    /\ conversation_stage state' = Some (str "collecting_document")
    /\ messages state'
       = messages state ++ [Message AIMessage (documento_registrado_text d)]
    /\ conversation_id state' = conversation_id state
    /\ intent state' = intent state
    /\ eps state' = eps state
    /\ medical_specialty state' = medical_specialty state
    /\ (eps state = None -> medical_specialty state = None ->
        is_conversation_complete state' = false).
Proof.
  intros Hlast Hdn Hpide Hllm Htype Hnumber Hdigit.
  unfold _procesar_documento.
  rewrite (last_message_snoc state history last Hlast), bind_ret_l.
  unfold py_not. rewrite truthy_get, Hdn. cbn [negb truthy]. rewrite Hpide.
  run. rewrite Hllm; run.
  assert (Hvalid : documento_valido d = true).
  { unfold documento_valido, is_unknown in *.
    apply eqb_neq in Htype, Hnumber. rewrite Htype, Hnumber.
    apply any_isdigit_true in Hdigit. rewrite Hdigit. reflexivity. }
  rewrite Hvalid; run.
  eexists; repeat split.
  intros Heps Hspecialty. unfold is_conversation_complete.
  cbn [with_messages with_conversation_stage with_document_number with_document_type
       document_number eps medical_specialty].
  rewrite Heps, Hspecialty. reflexivity.
Qed.

(** Claim C4. In [_procesar_cita] an extracted EPS or specialty counts as
    found only if it is not empty, is not the sentinel and has a token
    that occurs in the lower-cased message; the node stores the two values
    only when both count as found.  When the extracted EPS shares no token
    with the message, the EPS is not found: the node returns the state with
    EPS, specialty and stage as before and a reply that asks for the EPS. *)
Theorem procesar_cita_anti_hallucination
  (state : AgentState) (history : list BaseMessage) (last : BaseMessage) (d : DatosCita.t) :
  messages state = history ++ [last] ->
  invoke_DatosCita (llm self) (cita_request (content last)) = Returned d ->
  (eps_found d (lower (content last)) = true ->
   counts_as_found (DatosCita.eps d) (content last))
  /\ (specialty_found d (lower (content last)) = true ->
      counts_as_found (DatosCita.medical_specialty d) (content last))
  /\ (exists state',
        result_of (_procesar_cita self state) = Returned state'
        /\ ((eps state' = eps state
             /\ medical_specialty state' = medical_specialty state
             /\ conversation_stage state' = conversation_stage state)
            \/ (counts_as_found (DatosCita.eps d) (content last)
                /\ counts_as_found (DatosCita.medical_specialty d) (content last)
                /\ eps state' = Some (DatosCita.eps d)
                /\ medical_specialty state' = Some (DatosCita.medical_specialty d)
                /\ conversation_stage state' = Some (str "completed"))))
  /\ (shares_no_token (DatosCita.eps d) (content last) ->
      eps_found d (lower (content last)) = false
      /\ exists state' also_missing,
           result_of (_procesar_cita self state) = Returned state'
           /\ eps state' = eps state
           /\ medical_specialty state' = medical_specialty state
           /\ conversation_stage state' = conversation_stage state
           /\ messages state'
              = messages state
                ++ [Message AIMessage
                      (cita_faltante_text
                         (str "Necesito que me indiques "
                          ++ join (str ", y ") (str "tu EPS" :: also_missing)
                          ++ str "."))]).
Proof.
  intros Hlast Hllm.
  split; [apply found_counts|]. split; [apply found_counts|].
  unfold _procesar_cita.
  rewrite (last_message_snoc state history last Hlast), bind_ret_l.
  run. rewrite Hllm; run. split.
  - destruct (eps_found d (lower (content last))) eqn:Heps;
      destruct (specialty_found d (lower (content last))) eqn:Hspecialty;
      cbn [andb]; run; eexists; (split; [reflexivity|]).
    + right. split; [apply found_counts; exact Heps|].
      split; [apply found_counts; exact Hspecialty|]. repeat split.
    + left. repeat split.
    + left. repeat split.
    + left. repeat split.
  - intros Hnone.
    assert (Heps : eps_found d (lower (content last)) = false).
    { unfold eps_found. apply any_in_false in Hnone. rewrite Hnone. apply andb_false_r. }
    split; [exact Heps|].
    rewrite Heps. cbn [andb negb app]. run.
    eexists; eexists; repeat split.
Qed.

End Extraction.

(** ** More on the nodes *)

(** Splits a node into its branches: the empty history, each test, each
    answer of the model. *)
Ltac branches :=
  repeat first
    [ progress run
    | match goal with
      | |- context [match rev (messages ?s) with _ => _ end] =>
          destruct (rev (messages s)) as [|? ?] eqn:?
      | |- context [invoke (llm ?s) ?p] => destruct (invoke (llm s) p) eqn:?
      | |- context [invoke_IdentificacionPaciente (llm ?s) ?p] =>
          destruct (invoke_IdentificacionPaciente (llm s) p) eqn:?
      | |- context [invoke_DatosCita (llm ?s) ?p] =>
          destruct (invoke_DatosCita (llm s) p) eqn:?
      | |- context [if ?b then _ else _] => destruct b eqn:?
      end ].

Ltac open_node :=
  unfold _clasificar_intencion, clasificar_con_llm, _procesar_saludo, _procesar_documento,
    _procesar_cita, _finalizar_conversacion, _manejar_otro_tema, last_message;
  branches.

Lemma bind_ret_r {A : Type} (m : M A) : bind m (fun a => ret a) = m.
Proof.
  destruct m as [calls [a|e]]; cbn [bind ret]; [|reflexivity].
  now rewrite app_nil_r.
Qed.

Lemma bind_returned {A B : Type} (m : M A) (k : A -> M B) (b : B) :
  result_of (bind m k) = Returned b ->
  exists a, result_of m = Returned a
            /\ result_of (k a) = Returned b
            /\ calls_of (bind m k) = calls_of m ++ calls_of (k a).
Proof.
  destruct m as [calls [a|e]]; [|discriminate].
  unfold bind, result_of, calls_of. cbn [fst snd].
  destruct (k a) as [calls' r] eqn:Hk; cbn [fst snd]. intros ->.
  exists a. rewrite Hk. split; [reflexivity|]. split; reflexivity.
Qed.

Lemma intent_labels_set (label : pystr) :
  In label intent_labels -> is_set (Some label) = true.
Proof.
  intros [<- | [<- | [<- | []]]]; reflexivity.
Qed.

Lemma mem_In (x : pystr) (xs : list pystr) : mem x xs = true -> In x xs.
Proof.
  unfold mem. intros H. apply existsb_exists in H as [y [Hy Hxy]].
  apply eqb_eq in Hxy. now subst.
Qed.

Lemma saludo_known : In (str "saludo") intent_labels.
Proof. left; reflexivity. Qed.

Lemma agendar_cita_known : In (str "agendar_cita") intent_labels.
Proof. right; left; reflexivity. Qed.

Lemma otro_known : In (str "otro") intent_labels.
Proof. right; right; left; reflexivity. Qed.

Section NodeFacts.

Context {U : UnicodeTables}.
Variable self : MedicalAppointmentAgent.

(** The classifier returns the state it was given with one of the three
    labels as intent. *)
Lemma clasificar_intencion_effect (state state' : AgentState) :
  result_of (_clasificar_intencion self state) = Returned state' ->
  exists label, In label intent_labels /\ state' = with_intent state label.
Proof.
  open_node; intros [= <-]; eexists; (split; [|reflexivity]);
    auto using saludo_known, agendar_cita_known, otro_known, mem_In.
Qed.

Lemma node_keeps_conversation_id (name : node) (state state' : AgentState) :
  result_of (node_action self name state) = Returned state' ->
  conversation_id state' = conversation_id state.
Proof.
  destruct name; cbn [node_action]; open_node; intros [= <-]; reflexivity.
Qed.

Lemma node_intent (name : node) (state state' : AgentState) :
  result_of (node_action self name state) = Returned state' ->
  intent state' = intent state \/ has_known_intent state'.
Proof.
  destruct name; cbn [node_action].
  - intros H. apply clasificar_intencion_effect in H as [label [Hlabel ->]].
    right. exists label. split; [assumption | reflexivity].
  - open_node; intros [= <-]; left; reflexivity.
  - open_node; intros [= <-];
      first [ left; reflexivity
            | right; exists (str "agendar_cita");
              split; [apply agendar_cita_known | reflexivity] ].
  - open_node; intros [= <-]; left; reflexivity.
  - open_node; intros [= <-]; left; reflexivity.
  - open_node; intros [= <-]; left; reflexivity.
Qed.

Lemma node_keeps_document (name : node) (state state' : AgentState) :
  result_of (node_action self name state) = Returned state' ->
  name <> procesar_documento \/ is_set (document_number state) = true ->
  document_type state' = document_type state
  /\ document_number state' = document_number state.
Proof.
  destruct name; cbn [node_action]; intros H Hwhy.
  3: { destruct Hwhy as [Hwhy | Hset]; [congruence|].
       revert H. unfold _procesar_documento, last_message, py_not.
       rewrite truthy_get, Hset. cbn [negb truthy]. branches.
       all: intros [= <-]; split; reflexivity. }
  all: revert H; open_node; intros [= <-]; split; reflexivity.
Qed.

Lemma node_keeps_appointment (name : node) (state state' : AgentState) :
  result_of (node_action self name state) = Returned state' ->
  name <> procesar_cita ->
  eps state' = eps state /\ medical_specialty state' = medical_specialty state.
Proof.
  destruct name; cbn [node_action]; intros H Hname; try congruence.
  all: revert H; open_node; intros [= <-]; split; reflexivity.
Qed.

Lemma node_messages (name : node) (state state' : AgentState) :
  result_of (node_action self name state) = Returned state' ->
  match name with
  | clasificar_intencion | finalizar_conversacion => messages state' = messages state
  | _ => exists reply, messages state' = messages state ++ [Message AIMessage reply]
  end.
Proof.
  destruct name; cbn [node_action]; open_node; intros [= <-];
    first [reflexivity | eexists; reflexivity].
Qed.

Lemma node_calls (name : node) (state state' : AgentState) :
  result_of (node_action self name state) = Returned state' ->
  ends_with_save (calls_of (node_action self name state)) state'
  /\ llm_calls (calls_of (node_action self name state)) <= 1
  /\ save_calls (calls_of (node_action self name state)) = 1.
Proof.
  unfold ends_with_save, llm_calls, save_calls.
  destruct name; cbn [node_action]; open_node; intros [= <-];
    (split; [first [exists []; reflexivity | eexists [_]; reflexivity]
            | cbn; auto]).
Qed.

Lemma node_failure_saves_nothing (name : node) (state : AgentState) (e : Exception) :
  result_of (node_action self name state) = Raised e ->
  save_calls (calls_of (node_action self name state)) = 0.
Proof.
  unfold save_calls.
  destruct name; cbn [node_action]; open_node; intros [= <-]; reflexivity.
Qed.

Lemma node_returns (name : node) (state : AgentState) :
  name <> clasificar_intencion ->
  messages state <> [] ->
  exists state', result_of (node_action self name state) = Returned state'.
Proof.
  intros Hname Hne.
  assert (Hrev : rev (messages state) <> []).
  { intros H. apply Hne. apply (f_equal (@rev _)) in H.
    now rewrite rev_involutive in H. }
  destruct name; cbn [node_action]; try congruence; open_node;
    try congruence; eexists; reflexivity.
Qed.

End NodeFacts.

(** ** The workflow *)

Lemma route_entry_cases (state : AgentState) :
  _route_entry state = clasificar_intencion
  \/ _route_entry state = finalizar_conversacion
  \/ _route_entry state = procesar_cita
  \/ _route_entry state = procesar_documento.
Proof.
  unfold _route_entry.
  repeat match goal with |- context [if ?b then _ else _] => destruct b end; auto.
Qed.

Lemma route_after_classification_cases (state : AgentState) :
  _route_after_classification state = procesar_saludo
  \/ _route_after_classification state = procesar_documento
  \/ _route_after_classification state = manejar_otro_tema.
Proof.
  unfold _route_after_classification.
  repeat match goal with |- context [if ?b then _ else _] => destruct b end; auto.
Qed.

Lemma route_entry_procesar_cita_inv (state : AgentState) :
  _route_entry state = procesar_cita ->
  is_set (intent state) = true /\ is_set (document_number state) = true
  /\ is_set (eps state) = false.
Proof.
  unfold _route_entry, py_eq, py_and, py_not.
  destruct state as [cid i dt dn e ms msgs stage];
    cbn [intent document_number eps medical_specialty].
  destruct i as [[|ci i]|], dn as [[|cn dn]|], e as [[|ce e]|], ms as [[|cm ms]|];
    cbn [get truthy is_set negb]; try discriminate; auto;
    destruct (PyStr.eqb (ci :: i) (str "agendar_cita")); discriminate.
Qed.

Lemma route_entry_procesar_documento_inv (state : AgentState) :
  _route_entry state = procesar_documento ->
  intent state = Some (str "agendar_cita") /\ is_set (document_number state) = false.
Proof.
  unfold _route_entry, py_eq, py_and, py_not.
  destruct state as [cid i dt dn e ms msgs stage];
    cbn [intent document_number eps medical_specialty].
  destruct i as [[|ci i]|], dn as [[|cn dn]|], e as [[|ce e]|], ms as [[|cm ms]|];
    cbn [get truthy is_set negb]; try discriminate; auto;
    destruct (PyStr.eqb (ci :: i) (str "agendar_cita")) eqn:Heq; try discriminate;
    apply eqb_eq in Heq; rewrite Heq; auto.
Qed.

Lemma rev_nil_inv {A : Type} (l : list A) : rev l = [] -> l = [].
Proof.
  intros H. apply (f_equal (@rev A)) in H. now rewrite rev_involutive in H.
Qed.

Lemma rev_cons_inv {A : Type} (l r : list A) (x : A) : rev l = x :: r -> l = rev r ++ [x].
Proof.
  intros H. apply (f_equal (@rev A)) in H. now rewrite rev_involutive in H.
Qed.

Section WorkflowFacts.

Context {U : UnicodeTables}.
Variable self : MedicalAppointmentAgent.

Local Open Scope py_scope.

Lemma run_from_step (steps : nat) (name : node) (state : AgentState) :
  run_from self (S steps) name state
  = (state' <- node_action self name state ;;
     match next_destination name state' with
     | Some END => ret state'
     | Some (Goto next) => run_from self steps next state'
     | None => raise (RuntimeError (str "KeyError"))
     end).
Proof. reflexivity. Qed.

Lemma run_from_leaf (steps : nat) (name : node) (state : AgentState) :
  name <> clasificar_intencion ->
  run_from self (S steps) name state = node_action self name state.
Proof.
  intros Hname. rewrite run_from_step.
  destruct name; try congruence; cbn [next_destination]; apply bind_ret_r.
Qed.

Lemma process_conversation_direct (state : AgentState) :
  _route_entry state <> clasificar_intencion ->
  process_conversation self state = node_action self (_route_entry state) state.
Proof.
  intros Hroute. unfold process_conversation, recursion_limit.
  destruct (route_entry_cases state) as [H | [H | [H | H]]]; rewrite H in *;
    try congruence; cbn [entry_point_mapping]; now apply run_from_leaf.
Qed.

Lemma process_conversation_classified (state : AgentState) :
  _route_entry state = clasificar_intencion ->
  process_conversation self state
  = (classified <- _clasificar_intencion self state ;;
     node_action self (_route_after_classification classified) classified).
Proof.
  intros Hroute. unfold process_conversation, recursion_limit.
  rewrite Hroute; cbn [entry_point_mapping]. rewrite run_from_step; cbn [node_action].
  destruct (_clasificar_intencion self state) as [calls [classified|e]];
    cbn [bind]; [|reflexivity].
  destruct (route_after_classification_cases classified) as [H | [H | H]];
    cbn [next_destination]; rewrite H; cbn [classification_mapping option_map];
    rewrite run_from_leaf by discriminate; reflexivity.
Qed.

(** A turn that returns ran one node on the state given, or the classifier
    and then the node its label selects. *)
Lemma turn_cases (state state' : AgentState) :
  result_of (process_conversation self state) = Returned state' ->
  (_route_entry state <> clasificar_intencion
   /\ result_of (node_action self (_route_entry state) state) = Returned state'
   /\ calls_of (process_conversation self state)
      = calls_of (node_action self (_route_entry state) state))
  \/ (_route_entry state = clasificar_intencion
      /\ exists label name,
           In label intent_labels
           /\ In name [procesar_saludo; procesar_documento; manejar_otro_tema]
           /\ result_of (_clasificar_intencion self state)
              = Returned (with_intent state label)
           /\ result_of (node_action self name (with_intent state label)) = Returned state'
           /\ calls_of (process_conversation self state)
              = calls_of (_clasificar_intencion self state)
                ++ calls_of (node_action self name (with_intent state label))).
Proof.
  destruct (route_entry_cases state) as [Hroute | Hroute].
  - rewrite (process_conversation_classified state Hroute). intros H.
    apply bind_returned in H as (classified & Hclassified & Hnode & Hcalls).
    right. split; [exact Hroute|].
    destruct (clasificar_intencion_effect self state classified Hclassified)
      as [label [Hlabel ->]].
    exists label, (_route_after_classification (with_intent state label)).
    repeat split; try assumption.
    destruct (route_after_classification_cases (with_intent state label)) as [H | [H | H]];
      rewrite H; cbn [In]; auto.
  - assert (Hdirect : _route_entry state <> clasificar_intencion)
      by (destruct Hroute as [H | [H | H]]; rewrite H; discriminate).
    rewrite (process_conversation_direct state Hdirect). intros H.
    left. repeat split; assumption.
Qed.

(** How a node can fail. *)
Lemma node_raised (name : node) (state : AgentState) (e : Exception) :
  result_of (node_action self name state) = Raised e ->
  (messages state = [] /\ e = IndexError)
  \/ (name = clasificar_intencion
      /\ exists history last,
           messages state = history ++ [last]
           /\ invoke (llm self) (classification_request (lower (content last))) = Raised e).
Proof.
  destruct name; cbn [node_action]; open_node; intros [= <-];
    try (left; split; [now apply rev_nil_inv | reflexivity]).
  right. split; [reflexivity|].
  match goal with H : rev (messages state) = ?b :: ?l |- _ =>
    exists (rev l), b; split; [now apply rev_cons_inv | assumption] end.
Qed.

End WorkflowFacts.

Lemma bind_raised {A B : Type} (m : M A) (k : A -> M B) (e : Exception) :
  result_of (bind m k) = Raised e ->
  result_of m = Raised e
  \/ exists a, result_of m = Returned a /\ result_of (k a) = Raised e.
Proof.
  destruct m as [calls [a|e']]; [|intros [= <-]; left; reflexivity].
  unfold bind, result_of. cbn [fst snd].
  destruct (k a) as [calls' r] eqn:Hk; cbn [snd]. intros ->.
  right. exists a. rewrite Hk. split; reflexivity.
Qed.

Lemma route_entry_all_set (state : AgentState) :
  is_set (intent state) = true -> is_set (document_number state) = true ->
  is_set (eps state) = true -> is_set (medical_specialty state) = true ->
  _route_entry state = finalizar_conversacion.
Proof.
  intros Hi Hdn He Hms. unfold _route_entry, py_and, py_not.
  rewrite !truthy_get, Hi. cbn [negb truthy].
  rewrite Hdn, truthy_get, He, truthy_get, Hms. reflexivity.
Qed.

Lemma known_intent_set (state : AgentState) :
  has_known_intent state -> is_set (intent state) = true.
Proof. intros [label [Hlabel ->]]. now apply intent_labels_set. Qed.

Lemma llm_calls_app (a b : list call) : llm_calls (a ++ b) = llm_calls a + llm_calls b.
Proof. unfold llm_calls. now rewrite filter_app, length_app. Qed.

Lemma save_calls_app (a b : list call) : save_calls (a ++ b) = save_calls a + save_calls b.
Proof. unfold save_calls. now rewrite filter_app, length_app. Qed.

Section NodeTheorems.

Context {U : UnicodeTables}.
Variable self : MedicalAppointmentAgent.

Local Open Scope py_scope.

(** X1. Whatever the model answers, the classifier stores one of the three
    labels and changes nothing else, and the router that follows knows the
    label: [saludo] leads to the greeting node, [agendar_cita] to the
    document node, [otro] to the off-topic node. *)
Theorem clasificar_intencion_label_is_dispatched (state state' : AgentState) :
  result_of (_clasificar_intencion self state) = Returned state' ->
  exists label,
    state' = with_intent state label
    /\ ((label = str "saludo" /\ _route_after_classification state' = procesar_saludo)
        \/ (label = str "agendar_cita"
            /\ _route_after_classification state' = procesar_documento)
        \/ (label = str "otro" /\ _route_after_classification state' = manejar_otro_tema)).
Proof.
  intros H. apply clasificar_intencion_effect in H as [label [Hlabel ->]].
  exists label. split; [reflexivity|].
  destruct Hlabel as [<- | [<- | [<- | []]]]; [left | right; left | right; right];
    (split; [reflexivity | vm_compute; reflexivity]).
Qed.

(** X2. Both routers answer only names that their dictionary in
    [_build_workflow] binds, on every state: the graph never meets an
    unmapped branch. *)
Theorem routers_answer_mapped_names (state : AgentState) :
  entry_point_mapping (_route_entry state) = Some (_route_entry state)
  /\ classification_mapping (_route_after_classification state)
     = Some (_route_after_classification state).
Proof.
  split.
  - destruct (route_entry_cases state) as [H | [H | [H | H]]]; rewrite H; reflexivity.
  - destruct (route_after_classification_cases state) as [H | [H | H]];
      rewrite H; reflexivity.
Qed.

(** X3. An appointment keyword in the lower-cased message always wins:
    whatever the stage and whatever greeting words the message also holds,
    the classifier stores [agendar_cita] and only saves. *)
Theorem clasificar_intencion_keyword_wins
  (state : AgentState) (history : list BaseMessage) (last : BaseMessage) :
  messages state = history ++ [last] ->
  any_in cita_keywords (lower (content last)) = true ->
  _clasificar_intencion self state
  = ([db_save_conversation (with_intent state (str "agendar_cita"))],
     Returned (with_intent state (str "agendar_cita"))).
Proof.
  intros Hlast Hkeyword. unfold _clasificar_intencion.
  rewrite (last_message_snoc state history last Hlast), bind_ret_l, Hkeyword.
  destruct (stage_is_greeting state && any_in afirmativas (lower (content last)));
    [reflexivity|].
  destruct (any_in saludos (lower (content last))); reflexivity.
Qed.

(** X4. The classifier asks the model exactly when no keyword rule
    applies, and then once, with the lower-cased message. *)
Theorem clasificar_intencion_asks_model_iff_no_rule
  (state : AgentState) (history : list BaseMessage) (last : BaseMessage) :
  messages state = history ++ [last] ->
  filter is_llm_call (calls_of (_clasificar_intencion self state))
  = if reaches_delegation state (lower (content last))
    then [llm_invoke (classification_request (lower (content last)))]
    else [].
Proof.
  intros Hlast. unfold _clasificar_intencion, reaches_delegation.
  rewrite (last_message_snoc state history last Hlast), bind_ret_l.
  destruct (stage_is_greeting state && any_in afirmativas (lower (content last)));
    [reflexivity|].
  destruct (any_in saludos (lower (content last))).
  { destruct (any_in cita_keywords (lower (content last))); reflexivity. }
  destruct (any_in cita_keywords (lower (content last))); [reflexivity|].
  unfold clasificar_con_llm; run.
  destruct (invoke (llm self) _) as [response|e]; run; [|reflexivity].
  destruct (mem _ intent_labels); reflexivity.
Qed.

(** X5. The document node asks the model exactly when no document number
    is stored and the message is not a bare request to schedule, and then
    once, with the message as the user wrote it. *)
Theorem procesar_documento_asks_model_iff_needed
  (state : AgentState) (history : list BaseMessage) (last : BaseMessage) :
  messages state = history ++ [last] ->
  filter is_llm_call (calls_of (_procesar_documento self state))
  = if is_set (document_number state) || pide_documento state (content last)
    then []
    else [llm_structured_IdentificacionPaciente (documento_request (content last))].
Proof.
  intros Hlast. unfold _procesar_documento.
  rewrite (last_message_snoc state history last Hlast), bind_ret_l.
  unfold py_not. rewrite truthy_get.
  destruct (is_set (document_number state)); cbn [negb truthy orb]; [reflexivity|].
  destruct (pide_documento state (content last)); [reflexivity|].
  run. destruct (invoke_IdentificacionPaciente (llm self) _) as [d|e]; run; [|reflexivity].
  destruct (documento_valido d); reflexivity.
Qed.

(** X6. Once a document number is stored the document node never replaces
    it: without asking the model it keeps type and number, sets the stage
    to [requesting_appointment_data] and asks for EPS and specialty. *)
Theorem procesar_documento_keeps_stored_document
  (state : AgentState) (history : list BaseMessage) (last : BaseMessage) :
  messages state = history ++ [last] ->
  is_set (document_number state) = true ->
  exists state',
    _procesar_documento self state = ([db_save_conversation state'], Returned state')
    /\ document_type state' = document_type state
    /\ document_number state' = document_number state
    /\ conversation_stage state' = Some (str "requesting_appointment_data")
    /\ messages state' = messages state ++ [Message AIMessage solicitar_cita_text].
Proof.
  intros Hlast Hset. unfold _procesar_documento.
  rewrite (last_message_snoc state history last Hlast), bind_ret_l.
  unfold py_not. rewrite truthy_get, Hset. cbn [negb truthy]. run.
  eexists. repeat split.
Qed.

(** X7. The document node changes the stored document number only to a
    number the model extracted that holds a digit and is not the sentinel,
    and only when none was stored. *)
Theorem procesar_documento_stores_only_valid_numbers (state state' : AgentState) :
  result_of (_procesar_documento self state) = Returned state' ->
  document_number state' <> document_number state ->
  is_set (document_number state) = false
  /\ exists number,
       document_number state' = Some number
       /\ (exists c, In c number /\ isdigit c = true)
       /\ ~ is_unknown number.
Proof.
  unfold _procesar_documento, last_message, py_not. rewrite truthy_get.
  destruct (rev (messages state)) as [|last rest]; run; [discriminate|].
  destruct (is_set (document_number state)); cbn [negb truthy];
    [run; intros [= <-] Hchanged; now contradiction Hchanged|].
  destruct (pide_documento state (content last));
    [run; intros [= <-] Hchanged; now contradiction Hchanged|].
  run. destruct (invoke_IdentificacionPaciente (llm self) _) as [d|e]; run;
    [|intros [= <-] Hchanged; now contradiction Hchanged].
  destruct (documento_valido d) eqn:Hvalid; run;
    [|intros [= <-] Hchanged; now contradiction Hchanged].
  intros [= <-] _. split; [reflexivity|].
  exists (IdentificacionPaciente.document_number d).
  unfold documento_valido in Hvalid.
  apply andb_true_iff in Hvalid as [Hvalid Hdigit].
  apply andb_true_iff in Hvalid as [_ Hnumber].
  repeat split.
  - now apply any_isdigit_true.
  - unfold is_unknown. apply eqb_neq. now apply negb_true_iff.
Qed.

(** X8. When the extraction of EPS and specialty raises, the appointment
    node does not: it returns the state with every field as before and the
    fixed apology appended, and saves it. *)
Theorem procesar_cita_extractor_failure
  (state : AgentState) (history : list BaseMessage) (last : BaseMessage) (e : Exception) :
  messages state = history ++ [last] ->
  invoke_DatosCita (llm self) (cita_request (content last)) = Raised e ->
  _procesar_cita self state
  = ([llm_structured_DatosCita (cita_request (content last));
      db_save_conversation
        (with_messages state (messages state ++ [Message AIMessage cita_problema_text]))],
     Returned
       (with_messages state (messages state ++ [Message AIMessage cita_problema_text]))).
Proof.
  intros Hlast Hllm. unfold _procesar_cita.
  rewrite (last_message_snoc state history last Hlast), bind_ret_l.
  run. rewrite Hllm; run. reflexivity.
Qed.

(** X9. Which node can change which field: every node keeps the
    conversation identifier; the document type and number change only in
    the document node and only while no number is stored; EPS and specialty
    change only in the appointment node; the intent stays or becomes one
    of the three labels. *)
Theorem nodes_frame (name : node) (state state' : AgentState) :
  result_of (node_action self name state) = Returned state' ->
  conversation_id state' = conversation_id state
  /\ (name <> procesar_documento \/ is_set (document_number state) = true ->
      document_type state' = document_type state
      /\ document_number state' = document_number state)
  /\ (name <> procesar_cita ->
      eps state' = eps state /\ medical_specialty state' = medical_specialty state)
  /\ (intent state' = intent state \/ has_known_intent state').
Proof.
  intros H. split; [|split; [|split]].
  - exact (node_keeps_conversation_id self name state state' H).
  - exact (node_keeps_document self name state state' H).
  - exact (node_keeps_appointment self name state state' H).
  - exact (node_intent self name state state' H).
Qed.

(** X10. A node that returns has saved exactly once, last, the state it
    returns, after asking the model at most once; a node that raises has
    saved nothing. *)
Theorem nodes_save_what_they_return (name : node) (state : AgentState) :
  match result_of (node_action self name state) with
  | Returned state' =>
      ends_with_save (calls_of (node_action self name state)) state'
      /\ llm_calls (calls_of (node_action self name state)) <= 1
      /\ save_calls (calls_of (node_action self name state)) = 1
  | Raised _ => save_calls (calls_of (node_action self name state)) = 0
  end.
Proof.
  destruct (result_of (node_action self name state)) as [state'|e] eqn:H.
  - exact (node_calls self name state state' H).
  - exact (node_failure_saves_nothing self name state e H).
Qed.

End NodeTheorems.

Section WorkflowTheorems.

Context {U : UnicodeTables}.
Variable self : MedicalAppointmentAgent.

Local Open Scope py_scope.

(** X11. A turn fails in two ways only: with [IndexError] on an empty
    history, or with the exception the classification call raised.  The
    graph library's own errors never occur, and a turn on a non-empty
    history with a model that answers always returns. *)
Theorem process_conversation_failures (state : AgentState) :
  (forall e, result_of (process_conversation self state) = Raised e ->
             (messages state = [] /\ e = IndexError)
             \/ exists history last,
                  messages state = history ++ [last]
                  /\ invoke (llm self) (classification_request (lower (content last)))
                     = Raised e)
  /\ (messages state <> [] ->
      (forall prompt, exists response, invoke (llm self) prompt = Returned response) ->
      exists state', result_of (process_conversation self state) = Returned state').
Proof.
  assert (Hfail : forall e, result_of (process_conversation self state) = Raised e ->
             (messages state = [] /\ e = IndexError)
             \/ exists history last,
                  messages state = history ++ [last]
                  /\ invoke (llm self) (classification_request (lower (content last)))
                     = Raised e).
  { intros e. destruct (route_entry_cases state) as [Hroute | Hroute].
    - rewrite (process_conversation_classified self state Hroute). intros H.
      apply bind_raised in H as [H | [classified [Hclassified H]]].
      + apply (node_raised self clasificar_intencion) in H as [H | [_ H]]; auto.
      + apply clasificar_intencion_effect in Hclassified as [label [_ ->]].
        apply node_raised in H as [H | [Hname _]]; [left; exact H|].
        destruct (route_after_classification_cases (with_intent state label))
          as [R | [R | R]]; rewrite R in Hname; discriminate.
    - assert (Hdirect : _route_entry state <> clasificar_intencion)
        by (destruct Hroute as [H | [H | H]]; rewrite H; discriminate).
      rewrite (process_conversation_direct self state Hdirect). intros H.
      apply node_raised in H as [H | [Hname _]]; [left; exact H | contradiction]. }
  split; [exact Hfail|].
  intros Hne Hllm.
  destruct (result_of (process_conversation self state)) as [state'|e] eqn:H;
    [now exists state'|].
  destruct (Hfail e eq_refl) as [[Hempty _] | (history & last & _ & Hraised)].
  - contradiction.
  - destruct (Hllm (classification_request (lower (content last)))) as [response Hr].
    rewrite Hr in Hraised. discriminate.
Qed.

(** X12. A turn that returns either was routed to Finalize and returns the
    very state it was given, or appends exactly one agent message to the
    history. *)
Theorem process_conversation_reply (state state' : AgentState) :
  result_of (process_conversation self state) = Returned state' ->
  (_route_entry state = finalizar_conversacion /\ state' = state)
  \/ (_route_entry state <> finalizar_conversacion
      /\ exists reply, messages state' = messages state ++ [Message AIMessage reply]).
Proof.
  intros H. apply turn_cases in H as [(Hdirect & Hnode & _) | (Hroute & H)].
  - destruct (route_entry_cases state) as [R | [R | [R | R]]]; [contradiction | | |].
    + left. split; [exact R|]. rewrite R in Hnode.
      cbn [node_action] in Hnode. unfold _finalizar_conversacion in Hnode.
      revert Hnode; run. now intros [= <-].
    + right. split; [rewrite R; discriminate|].
      apply node_messages in Hnode. now rewrite R in Hnode.
    + right. split; [rewrite R; discriminate|].
      apply node_messages in Hnode. now rewrite R in Hnode.
  - destruct H as (label & name & _ & Hname & _ & Hnode & _).
    right. split; [rewrite Hroute; discriminate|].
    apply node_messages in Hnode.
    destruct Hname as [<- | [<- | [<- | []]]]; exact Hnode.
Qed.

(** X13. What a turn never changes: the conversation identifier; the
    document type and number once a number is stored; EPS and specialty
    once an EPS is stored. *)
Theorem process_conversation_frozen_fields (state state' : AgentState) :
  result_of (process_conversation self state) = Returned state' ->
  conversation_id state' = conversation_id state
  /\ (is_set (document_number state) = true ->
      document_type state' = document_type state
      /\ document_number state' = document_number state)
  /\ (is_set (eps state) = true ->
      eps state' = eps state /\ medical_specialty state' = medical_specialty state).
Proof.
  intros H. apply turn_cases in H as [(Hdirect & Hnode & _) | (Hroute & H)].
  - split; [|split].
    + exact (node_keeps_conversation_id self _ state state' Hnode).
    + intros Hset. apply (node_keeps_document self _ state state' Hnode). now right.
    + intros Hset. apply (node_keeps_appointment self _ state state' Hnode).
      intros Hcita. apply route_entry_procesar_cita_inv in Hcita as (_ & _ & Heps).
      congruence.
  - destruct H as (label & name & _ & Hname & _ & Hnode & _).
    split; [|split].
    + exact (node_keeps_conversation_id self _ _ state' Hnode).
    + intros Hset. apply (node_keeps_document self _ _ state' Hnode). now right.
    + intros _. apply (node_keeps_appointment self _ _ state' Hnode).
      destruct Hname as [<- | [<- | [<- | []]]]; discriminate.
Qed.

(** X14. After every turn that returns the intent is set; it is one of the
    three labels whenever it was unset or one of them before. *)
Theorem process_conversation_sets_intent (state state' : AgentState) :
  result_of (process_conversation self state) = Returned state' ->
  is_set (intent state') = true
  /\ (intent state = None \/ has_known_intent state -> has_known_intent state').
Proof.
  intros H. apply turn_cases in H as [(Hdirect & Hnode & _) | (Hroute & H)].
  - assert (Hset : is_set (intent state) = true).
    { destruct (route_entry_cases state) as [R | [R | [R | R]]]; [contradiction | | |].
      - now apply route_entry_finalizar_inv in R as (Hi & _).
      - now apply route_entry_procesar_cita_inv in R as (Hi & _).
      - apply route_entry_procesar_documento_inv in R as (Hi & _).
        rewrite Hi. reflexivity. }
    destruct (node_intent self _ state state' Hnode) as [Hsame | Hknown].
    + split; [now rewrite Hsame|].
      intros [Hnone | (label & Hlabel & Hintent)].
      * rewrite Hnone in Hset. discriminate.
      * exists label. split; [exact Hlabel | now rewrite Hsame].
    + split; [now apply known_intent_set | intros _; exact Hknown].
  - destruct H as (label & name & Hlabel & _ & _ & Hnode & _).
    assert (Hknown : has_known_intent state').
    { destruct (node_intent self _ _ state' Hnode) as [Hsame | Hknown]; [|exact Hknown].
      exists label. split; [exact Hlabel | exact Hsame]. }
    split; [now apply known_intent_set | intros _; exact Hknown].
Qed.

(** X15. The calls of a turn that returns: the last is the save of the
    state returned; the model is asked at most twice and the state saved
    once or twice. *)
Theorem process_conversation_calls (state state' : AgentState) :
  result_of (process_conversation self state) = Returned state' ->
  ends_with_save (calls_of (process_conversation self state)) state'
  /\ llm_calls (calls_of (process_conversation self state)) <= 2
  /\ 1 <= save_calls (calls_of (process_conversation self state)) <= 2.
Proof.
  intros H. apply turn_cases in H as [(Hdirect & Hnode & Hcalls) | (Hroute & H)].
  - rewrite Hcalls.
    destruct (node_calls self _ state state' Hnode) as (Hlast & Hllm & Hsave).
    rewrite Hsave. repeat split; auto.
  - destruct H as (label & name & _ & _ & Hclassified & Hnode & Hcalls).
    rewrite Hcalls, llm_calls_app, save_calls_app.
    destruct (node_calls self clasificar_intencion state _ Hclassified)
      as (_ & Hllm1 & Hsave1).
    destruct (node_calls self name _ state' Hnode) as ([earlier Hlast] & Hllm2 & Hsave2).
    cbn [node_action] in Hllm1, Hsave1. rewrite Hsave1, Hsave2.
    split; [|split; [|split]].
    + exists (calls_of (_clasificar_intencion self state) ++ earlier).
      rewrite Hlast. now rewrite app_assoc.
    + lia.
    + lia.
    + lia.
Qed.

(** X16. One good answer completes the conversation: when entry routing
    selects the appointment node and both extracted values are found in the
    message, the turn stores them, the completion predicate holds on the
    state returned, and the next turn on it goes to Finalize. *)
Theorem process_conversation_completes
  (state : AgentState) (history : list BaseMessage) (last : BaseMessage) (d : DatosCita.t) :
  messages state = history ++ [last] ->
  _route_entry state = procesar_cita ->
  invoke_DatosCita (llm self) (cita_request (content last)) = Returned d ->
  eps_found d (lower (content last)) = true ->
  specialty_found d (lower (content last)) = true ->
  exists state',
    result_of (process_conversation self state) = Returned state'
    /\ eps state' = Some (DatosCita.eps d)
    /\ medical_specialty state' = Some (DatosCita.medical_specialty d)
    /\ conversation_stage state' = Some (str "completed")
    /\ is_conversation_complete state' = true
    /\ _route_entry state' = finalizar_conversacion.
Proof.
  intros Hlast Hroute Hllm Heps Hspecialty.
  rewrite process_conversation_direct by (rewrite Hroute; discriminate).
  rewrite Hroute; cbn [node_action]. unfold _procesar_cita.
  rewrite (last_message_snoc state history last Hlast), bind_ret_l.
  run. rewrite Hllm; run. rewrite Heps, Hspecialty. cbn [andb]; run.
  apply route_entry_procesar_cita_inv in Hroute as (Hintent & Hnumber & _).
  eexists. split; [reflexivity|]. repeat split.
  - unfold is_conversation_complete.
    cbn [with_messages with_conversation_stage with_medical_specialty with_eps
         document_number eps medical_specialty].
    destruct (document_number state); [reflexivity | discriminate].
  - apply route_entry_all_set;
      cbn [with_messages with_conversation_stage with_medical_specialty with_eps
           intent document_number eps medical_specialty]; try assumption.
    + destruct (found_counts _ _ Heps) as (Hne & _).
      destruct (DatosCita.eps d); [contradiction | reflexivity].
    + destruct (found_counts _ _ Hspecialty) as (Hne & _).
      destruct (DatosCita.medical_specialty d); [contradiction | reflexivity].
Qed.

(** X29. A yes after the greeting: in stage [greeting] with no document
    number stored, a message holding an affirmative word makes the turn
    ask for the document, with intent [agendar_cita] and stage
    [requesting_document], whatever the intent was; the model is not
    asked, neither to classify nor to extract. *)
Theorem process_conversation_yes_after_greeting
  (state : AgentState) (history : list BaseMessage) (last : BaseMessage) :
  messages state = history ++ [last] ->
  conversation_stage state = Some (str "greeting") ->
  is_set (document_number state) = false ->
  any_in afirmativas (lower (content last)) = true ->
  exists state',
    result_of (process_conversation self state) = Returned state'
    /\ intent state' = Some (str "agendar_cita")
    /\ conversation_stage state' = Some (str "requesting_document")
    /\ document_number state' = document_number state
    /\ messages state' = messages state ++ [Message AIMessage solicitar_documento_text]
    /\ llm_calls (calls_of (process_conversation self state)) = 0.
Proof.
  intros Hlast Hstage Hnumber Hyes.
  assert (Hdocument : forall st,
             messages st = history ++ [last] ->
             conversation_stage st = Some (str "greeting") ->
             is_set (document_number st) = false ->
             _procesar_documento self st
             = ([db_save_conversation
                   (with_intent
                      (with_messages (with_conversation_stage st (str "requesting_document"))
                         (messages st ++ [Message AIMessage solicitar_documento_text]))
                      (str "agendar_cita"))],
                Returned
                  (with_intent
                     (with_messages (with_conversation_stage st (str "requesting_document"))
                        (messages st ++ [Message AIMessage solicitar_documento_text]))
                     (str "agendar_cita")))).
  { intros st Hl Hs Hn. unfold _procesar_documento.
    rewrite (last_message_snoc st history last Hl), bind_ret_l.
    unfold py_not. rewrite truthy_get, Hn. cbn [negb truthy].
    unfold pide_documento. rewrite (stage_is_greeting_true st Hs).
    change (any_in afirmativas_simples (lower (content last)))
      with (any_in afirmativas (lower (content last))).
    rewrite Hyes. cbn [andb orb]. run. reflexivity. }
  destruct (route_entry_cases state) as [Hroute | [Hroute | [Hroute | Hroute]]].
  - rewrite (process_conversation_classified self state Hroute).
    unfold _clasificar_intencion.
    rewrite (last_message_snoc state history last Hlast), bind_ret_l.
    rewrite (stage_is_greeting_true state Hstage), Hyes. cbn [andb]. run.
    change (_route_after_classification (with_intent state (str "agendar_cita")))
      with procesar_documento.
    cbn [node_action].
    rewrite (Hdocument (with_intent state (str "agendar_cita")) Hlast Hstage Hnumber).
    eexists. repeat split.
  - apply route_entry_finalizar_inv in Hroute as (_ & H & _). congruence.
  - apply route_entry_procesar_cita_inv in Hroute as (_ & H & _). congruence.
  - rewrite process_conversation_direct by (rewrite Hroute; discriminate).
    rewrite Hroute. cbn [node_action].
    rewrite (Hdocument state Hlast Hstage Hnumber).
    eexists. repeat split.
Qed.

End WorkflowTheorems.

Lemma route_finalizar_complete (state : AgentState) :
  _route_entry state = finalizar_conversacion ->
  is_conversation_complete state = true.
Proof.
  intros H. apply route_entry_finalizar_inv in H as (_ & Hdn & He & Hms).
  unfold is_conversation_complete.
  destruct (document_number state); [|discriminate].
  destruct (eps state); [|discriminate].
  destruct (medical_specialty state); [|discriminate].
  reflexivity.
Qed.

(** X17. Entry routing selects Finalize only on states the completion
    predicate accepts: while [is_conversation_complete] is false the
    Finalize node is never run. *)
Theorem route_entry_finalize_implies_complete (state : AgentState) :
  (_route_entry state = finalizar_conversacion ->
   is_conversation_complete state = true)
  /\ (is_conversation_complete state = false ->
      _route_entry state <> finalizar_conversacion).
Proof.
  split.
  - apply route_finalizar_complete.
  - intros Hincomplete Hroute. apply route_finalizar_complete in Hroute. congruence.
Qed.

(** ** The store *)

Lemma find_app {A : Type} (p : A -> bool) (l l' : list A) :
  find p (l ++ l') = match find p l with Some x => Some x | None => find p l' end.
Proof.
  induction l as [|x l IH]; cbn [app find]; [reflexivity|].
  destruct (p x); [reflexivity | exact IH].
Qed.

Lemma find_filter_out {A : Type} (p q : A -> bool) (l : list A) :
  (forall x, p x = true -> q x = false) ->
  find p (filter q l) = None.
Proof.
  intros Hpq. induction l as [|x l IH]; cbn [filter find]; [reflexivity|].
  destruct (q x) eqn:Hq; [|exact IH].
  cbn [find]. destruct (p x) eqn:Hp; [|exact IH].
  rewrite (Hpq x Hp) in Hq. discriminate.
Qed.

Lemma find_filter_keep {A : Type} (p q : A -> bool) (l : list A) :
  (forall x, p x = true -> q x = true) ->
  find p (filter q l) = find p l.
Proof.
  intros Hpq. induction l as [|x l IH]; cbn [filter find]; [reflexivity|].
  destruct (p x) eqn:Hp.
  - rewrite (Hpq x Hp). cbn [find]. now rewrite Hp.
  - destruct (q x); [cbn [find]; now rewrite Hp | exact IH].
Qed.

Lemma filter_filter_out {A : Type} (p q : A -> bool) (l : list A) :
  (forall x, p x = true -> q x = false) ->
  filter p (filter q l) = [].
Proof.
  intros Hpq. induction l as [|x l IH]; cbn [filter]; [reflexivity|].
  destruct (q x) eqn:Hq; [|exact IH].
  cbn [filter]. destruct (p x) eqn:Hp; [|exact IH].
  rewrite (Hpq x Hp) in Hq. discriminate.
Qed.

Lemma filter_filter_keep {A : Type} (p q : A -> bool) (l : list A) :
  (forall x, p x = true -> q x = true) ->
  filter p (filter q l) = filter p l.
Proof.
  intros Hpq. induction l as [|x l IH]; cbn [filter]; [reflexivity|].
  destruct (p x) eqn:Hp.
  - rewrite (Hpq x Hp). cbn [filter]. rewrite Hp. now f_equal.
  - destruct (q x); [cbn [filter]; now rewrite Hp | exact IH].
Qed.

Lemma eqb_sym (a b : pystr) : PyStr.eqb a b = PyStr.eqb b a.
Proof.
  destruct (PyStr.eqb a b) eqn:Hab; symmetry.
  - apply eqb_eq in Hab. subst. apply eqb_refl.
  - apply eqb_neq. apply eqb_neq in Hab. congruence.
Qed.

Lemma eqb_other (a b c : pystr) : a <> b -> PyStr.eqb c a = true -> PyStr.eqb c b = false.
Proof. intros Hab Hc. apply eqb_eq in Hc. subst. now apply eqb_neq. Qed.

Lemma insert_messages_conversation (clock : nat -> pystr) (reading : nat) (cid : pystr)
  (last_id : N) (msgs : list BaseMessage) :
  Forall (fun m => Db.m_conversation_id m = cid)
         (Db.insert_messages clock reading cid last_id msgs).
Proof.
  revert reading last_id. induction msgs as [|msg msgs IH]; intros reading last_id;
    cbn [Db.insert_messages]; constructor; [reflexivity | apply IH].
Qed.

Lemma insert_messages_content (clock : nat -> pystr) (reading : nat) (cid : pystr)
  (last_id : N) (msgs : list BaseMessage) :
  map (fun m => (Db.m_message_type m, Db.m_content m))
      (Db.insert_messages clock reading cid last_id msgs)
  = map (fun msg => (Db.message_type_of msg, content msg)) msgs.
Proof.
  revert reading last_id. induction msgs as [|msg msgs IH]; intros reading last_id;
    cbn [Db.insert_messages map]; [reflexivity|]. now rewrite IH.
Qed.

Lemma filter_all {A : Type} (p : A -> bool) (l : list A) :
  Forall (fun x => p x = true) l -> filter p l = l.
Proof.
  induction 1 as [|x l Hx _ IH]; cbn [filter]; [reflexivity|].
  rewrite Hx. now f_equal.
Qed.

Lemma filter_none {A : Type} (p : A -> bool) (l : list A) :
  Forall (fun x => p x = false) l -> filter p l = [].
Proof.
  induction 1 as [|x l Hx _ IH]; cbn [filter]; [reflexivity|].
  now rewrite Hx.
Qed.

(** After a save the row of the conversation holds the state saved. *)
Lemma save_then_get (clock : nat -> pystr) (db : Db.database) (state : AgentState)
  (cid : pystr) :
  conversation_id state = Some cid ->
  exists row,
    Db.get_conversation_by_id (fst (Db.save_conversation true clock db state)) cid
    = Some row
    /\ Db.holds row state
    /\ Db.c_created_at row = clock 0
    /\ Db.c_updated_at row = clock 1
    /\ Db.c_id row = (Db.conversations_seq db + 1)%N.
Proof.
  intros Hcid. unfold Db.save_conversation, Db.get_conversation_by_id.
  rewrite Hcid. cbn [fst Db.conversations_table].
  rewrite find_app, find_filter_out.
  2: { intros x Hx. now rewrite Hx. }
  cbn [find Db.c_conversation_id]. rewrite eqb_refl.
  eexists. split; [reflexivity|]. unfold Db.holds. cbn. rewrite Hcid. repeat split.
Qed.

Lemma save_then_stored_messages (clock : nat -> pystr) (db : Db.database)
  (state : AgentState) (cid : pystr) :
  conversation_id state = Some cid ->
  Db.stored_messages (fst (Db.save_conversation true clock db state)) cid
  = map (fun msg => (Db.message_type_of msg, content msg)) (messages state).
Proof.
  intros Hcid. unfold Db.save_conversation, Db.stored_messages.
  rewrite Hcid. cbn [fst Db.messages_table].
  rewrite filter_app, filter_filter_out.
  2: { intros x Hx. now rewrite Hx. }
  cbn [app]. rewrite filter_all.
  - apply insert_messages_content.
  - eapply Forall_impl; [|apply insert_messages_conversation].
    cbn beta. intros m ->. apply eqb_refl.
Qed.

Lemma persist_all_app (clock : nat -> nat -> pystr) (k : nat) (db : Db.database)
  (a b : list call) :
  persist_all clock k db (a ++ b)
  = persist_all clock (k + save_calls a) (persist_all clock k db a) b.
Proof.
  revert k db. induction a as [|c a IH]; intros k db.
  - cbn [app persist_all]. unfold save_calls. cbn. now rewrite Nat.add_0_r.
  - destruct c; cbn [app persist_all]; rewrite IH; unfold save_calls;
      cbn [filter is_llm_call negb List.length]; try reflexivity.
    now rewrite Nat.add_succ_r.
Qed.

Lemma filter_out_absent (cid : pystr) (rows : list Db.conversation) :
  ~ In cid (map Db.c_conversation_id rows) ->
  filter (fun c => negb (PyStr.eqb (Db.c_conversation_id c) cid)) rows = rows
  /\ find (fun c => PyStr.eqb (Db.c_conversation_id c) cid) rows = None.
Proof.
  induction rows as [|row rows IH]; cbn [map In filter find]; [split; reflexivity|].
  intros Hnot.
  assert (Hrow : PyStr.eqb (Db.c_conversation_id row) cid = false).
  { apply eqb_neq. intros Heq. apply Hnot. now left. }
  rewrite Hrow. cbn [negb].
  destruct IH as [IH1 IH2]; [intros Hin; apply Hnot; now right|].
  now rewrite IH1, IH2.
Qed.

Lemma filter_out_length (cid : pystr) (rows : list Db.conversation) :
  NoDup (map Db.c_conversation_id rows) ->
  List.length (filter (fun c => negb (PyStr.eqb (Db.c_conversation_id c) cid)) rows)
  + match find (fun c => PyStr.eqb (Db.c_conversation_id c) cid) rows with
    | Some _ => 1
    | None => 0
    end
  = List.length rows.
Proof.
  induction rows as [|row rows IH]; cbn [map filter find]; [reflexivity|].
  intros Hnodup. inversion Hnodup as [|? ? Hnot Hrest]; subst.
  destruct (PyStr.eqb (Db.c_conversation_id row) cid) eqn:Hrow; cbn [negb List.length].
  - apply eqb_eq in Hrow. subst cid.
    destruct (filter_out_absent _ rows Hnot) as [-> _]. lia.
  - specialize (IH Hrest). lia.
Qed.

(** Dropping the rows of one conversation keeps the others distinct. *)
Lemma other_rows_distinct (cid : pystr) (rows : list Db.conversation) :
  NoDup (map Db.c_conversation_id rows) ->
  NoDup (map Db.c_conversation_id
           (filter (fun c => negb (PyStr.eqb (Db.c_conversation_id c) cid)) rows)).
Proof.
  induction rows as [|row rows IH]; intros Hdistinct; [exact Hdistinct|].
  cbn [map] in Hdistinct. apply NoDup_cons_iff in Hdistinct as [Hfresh Hrest].
  cbn [filter].
  destruct (negb (PyStr.eqb (Db.c_conversation_id row) cid)); [|exact (IH Hrest)].
  cbn [map]. apply NoDup_cons; [|exact (IH Hrest)].
  contradict Hfresh.
  apply in_map_iff in Hfresh as [kept [Hsame Hkept]].
  apply filter_In in Hkept as [Hkept _].
  rewrite <- Hsame. now apply in_map.
Qed.

Section StoreTheorems.

Context {U : UnicodeTables}.
Variable self : MedicalAppointmentAgent.

(** X18. Round trip through the store: saving a state that has an
    identifier succeeds on a reachable database, and looking the identifier
    up then gives a row with the state's fields and the status derived from
    it.  The row is a new one: [created_at] is the time of this save, not
    of the first. *)
Theorem save_conversation_round_trip (clock : nat -> pystr) (db : Db.database)
  (state : AgentState) (cid : pystr) :
  conversation_id state = Some cid ->
  snd (Db.save_conversation true clock db state) = true
  /\ exists row,
       Db.get_conversation_by_id (fst (Db.save_conversation true clock db state)) cid
       = Some row
       /\ Db.holds row state
       /\ Db.c_created_at row = clock 0
       /\ Db.c_updated_at row = clock 1.
Proof.
  intros Hcid. split.
  - unfold Db.save_conversation. now rewrite Hcid.
  - destruct (save_then_get clock db state cid Hcid) as (row & Hget & Hholds & Hc & Hu & _).
    now exists row.
Qed.

(** X19. A save touches one conversation only: the row and the stored
    messages of every other identifier are as before. *)
Theorem save_conversation_frame (reachable : bool) (clock : nat -> pystr)
  (db : Db.database) (state : AgentState) (other : pystr) :
  conversation_id state <> Some other ->
  Db.get_conversation_by_id (fst (Db.save_conversation reachable clock db state)) other
  = Db.get_conversation_by_id db other
  /\ Db.stored_messages (fst (Db.save_conversation reachable clock db state)) other
     = Db.stored_messages db other.
Proof.
  intros Hother. unfold Db.save_conversation.
  destruct reachable; [|split; reflexivity].
  destruct (conversation_id state) as [cid|]; [|split; reflexivity].
  assert (Hne : cid <> other) by congruence.
  unfold Db.get_conversation_by_id, Db.stored_messages.
  cbn [fst Db.conversations_table Db.messages_table]. split.
  - rewrite find_app, find_filter_keep.
    2: { intros x Hx. apply negb_true_iff. apply (eqb_other other cid); congruence. }
    destruct (find _ (Db.conversations_table db)); [reflexivity|].
    cbn [find Db.c_conversation_id].
    assert (Hcid : PyStr.eqb cid other = false) by now apply eqb_neq.
    now rewrite Hcid.
  - rewrite filter_app, filter_filter_keep.
    2: { intros x Hx. apply negb_true_iff. apply (eqb_other other cid); congruence. }
    rewrite (filter_none _ (Db.insert_messages _ _ _ _ _)); [now rewrite app_nil_r|].
    eapply Forall_impl; [|apply insert_messages_conversation].
    cbn beta. intros m ->. now apply eqb_neq.
Qed.

(** X20. A save replaces the stored messages of the conversation by the
    state's messages, in order, whatever was stored before; a human
    message is stored as [human], every other as [ai]. *)
Theorem save_conversation_replaces_messages (clock : nat -> pystr) (db : Db.database)
  (state : AgentState) (cid : pystr) :
  conversation_id state = Some cid ->
  Db.stored_messages (fst (Db.save_conversation true clock db state)) cid
  = map (fun msg => (match type_ msg with
                     | HumanMessage => str "human"
                     | _ => str "ai"
                     end, content msg))
        (messages state).
Proof.
  intros Hcid. rewrite (save_then_stored_messages clock db state cid Hcid).
  apply map_ext. intros msg. unfold Db.message_type_of. now destruct (type_ msg).
Qed.

(** X21. The table keeps one row per conversation: a save on a table
    without duplicate identifiers leaves none, and the number of
    conversations grows by one for a new identifier and stays for a known
    one. *)
Theorem save_conversation_one_row_each (clock : nat -> pystr) (db : Db.database)
  (state : AgentState) (cid : pystr) :
  conversation_id state = Some cid ->
  Db.one_row_each db ->
  Db.one_row_each (fst (Db.save_conversation true clock db state))
  /\ Db.total_conversations (fst (Db.save_conversation true clock db state))
     = match Db.get_conversation_by_id db cid with
       | Some _ => Db.total_conversations db
       | None => S (Db.total_conversations db)
       end.
Proof.
  intros Hcid Hunique.
  unfold Db.one_row_each, Db.total_conversations, Db.get_conversation_by_id,
    Db.save_conversation in *.
  rewrite Hcid. cbn [fst Db.conversations_table]. split.
  - rewrite map_app. cbn [map Db.c_conversation_id].
    apply NoDup_app; [now apply other_rows_distinct | repeat constructor; intros [] |].
    intros x Hx [<- | []].
    apply in_map_iff in Hx as [row [Hrow Hin]].
    apply filter_In in Hin as [_ Hin].
    rewrite Hrow, eqb_refl in Hin. discriminate.
  - rewrite length_app. cbn [List.length].
    pose proof (filter_out_length cid _ Hunique) as Hlen.
    destruct (find _ (Db.conversations_table db)); lia.
Qed.

(** X22. The stored status is [completed] exactly when EPS and specialty
    are both non-empty; the document number plays no part.  Every state
    that entry routing sends to Finalize is stored as [completed]. *)
Theorem status_completed_iff (state : AgentState) :
  (Db.status_of state = str "completed"
   <-> is_set (eps state) = true /\ is_set (medical_specialty state) = true)
  /\ (_route_entry state = finalizar_conversacion ->
      Db.status_of state = str "completed").
Proof.
  assert (Hiff : Db.status_of state = str "completed"
                 <-> is_set (eps state) = true /\ is_set (medical_specialty state) = true).
  { unfold Db.status_of, py_and. rewrite truthy_get.
    destruct (is_set (eps state)) eqn:He.
    - rewrite truthy_get. destruct (is_set (medical_specialty state)).
      + split; auto.
      + split; [intros H; vm_compute in H; discriminate | intros [_ H]; discriminate].
    - rewrite truthy_get, He.
      split; [intros H; vm_compute in H; discriminate | intros [H _]; discriminate]. }
  split; [exact Hiff|].
  intros H. apply route_entry_finalizar_inv in H as (_ & _ & He & Hms).
  apply Hiff. now split.
Qed.

(** X23. What a turn returns is what the store holds: after the saves of a
    turn that returns, carried out in order on any reachable database, the
    row of the conversation holds the state returned and the stored
    messages are its messages. *)
Theorem process_conversation_is_persisted (clock : nat -> nat -> pystr) (k : nat)
  (db : Db.database) (state state' : AgentState) (cid : pystr) :
  conversation_id state = Some cid ->
  result_of (process_conversation self state) = Returned state' ->
  (exists row,
     Db.get_conversation_by_id
       (persist_all clock k db (calls_of (process_conversation self state))) cid
     = Some row
     /\ Db.holds row state')
  /\ Db.stored_messages
       (persist_all clock k db (calls_of (process_conversation self state))) cid
     = map (fun msg => (Db.message_type_of msg, content msg)) (messages state').
Proof.
  intros Hcid H.
  assert (Hcid' : conversation_id state' = Some cid).
  { rewrite <- Hcid. apply turn_cases in H as [(_ & Hnode & _) | (_ & H)].
    - exact (node_keeps_conversation_id self _ state state' Hnode).
    - destruct H as (label & name & _ & _ & _ & Hnode & _).
      exact (node_keeps_conversation_id self _ _ state' Hnode). }
  assert (Hlast : ends_with_save (calls_of (process_conversation self state)) state').
  { apply turn_cases in H as [(_ & Hnode & Hcalls) | (_ & H)].
    - rewrite Hcalls. now apply node_calls.
    - destruct H as (label & name & _ & _ & _ & Hnode & Hcalls).
      rewrite Hcalls. destruct (node_calls self name _ state' Hnode) as ([earlier ->] & _).
      exists (calls_of (_clasificar_intencion self state) ++ earlier).
      now rewrite app_assoc. }
  destruct Hlast as [earlier ->].
  rewrite persist_all_app. cbn [persist_all]. split.
  - destruct (save_then_get (clock (k + save_calls earlier))
                (persist_all clock k db earlier) state' cid Hcid')
      as (row & Hget & Hholds & _).
    now exists row.
  - now apply save_then_stored_messages.
Qed.

End StoreTheorems.

(** ** The command-line loop *)

Section MainTheorems.

Context {U : UnicodeTables}.
Variable self : MedicalAppointmentAgent.

(** The three ways an iteration can go. *)
Lemma main_iteration_cases (env : displays) (state : AgentState) (typed : pystr) :
  (is_turn typed = false
   /\ state_after (main_iteration self env state typed) = state
   /\ calls_made (main_iteration self env state typed) = []
   /\ (control_after (main_iteration self env state typed) = Break ->
       mem (lower (strip typed)) [str "salir"; str "exit"; str "quit"] = true
       /\ mostrar_estadisticas_raises env = None))
  \/ (is_turn typed = true
      /\ exists e,
           result_of (process_conversation self (with_user_message state typed)) = Raised e
           /\ main_iteration self env state typed
              = mkIteration
                  (calls_of (process_conversation self (with_user_message state typed)))
                  [print_error e] (with_user_message state typed) Continue)
  \/ (is_turn typed = true
      /\ exists final_state,
           result_of (process_conversation self (with_user_message state typed))
           = Returned final_state
           /\ state_after (main_iteration self env state typed) = final_state
           /\ calls_made (main_iteration self env state typed)
              = calls_of (process_conversation self (with_user_message state typed))
           /\ (control_after (main_iteration self env state typed) = Break
               <-> is_conversation_complete final_state = true
                   /\ mostrar_estadisticas_raises env = None)).
Proof.
  unfold main_iteration, is_turn, with_user_message, after_display.
  destruct (mem (lower (strip typed)) _) eqn:Hquit.
  { left. destruct (mostrar_estadisticas_raises env);
      cbn [negb andb state_after calls_made control_after]; repeat split; discriminate. }
  destruct (PyStr.eqb (lower (strip typed)) (str "stats")).
  { left. destruct (mostrar_estadisticas_raises env);
      cbn [negb andb state_after calls_made control_after]; repeat split; discriminate. }
  destruct (PyStr.eqb (lower (strip typed)) (str "grafo")).
  { left. destruct (save_graph_image_raises env);
      cbn [negb andb state_after calls_made control_after]; repeat split; discriminate. }
  unfold py_not. destruct (truthy (PStr (strip typed))); cbn [negb andb truthy].
  2: { left. cbn [state_after calls_made control_after]. repeat split; discriminate. }
  right.
  destruct (process_conversation self _) as [calls [final_state|e]] eqn:Hturn;
    cbn [result_of calls_of fst snd].
  - right. split; [reflexivity|]. exists final_state. split; [reflexivity|].
    destruct (is_conversation_complete final_state);
      [destruct (mostrar_estadisticas_raises env)|];
      cbn [state_after calls_made control_after]; repeat split;
      try discriminate; try reflexivity;
      intros [? ?]; discriminate.
  - left. split; [reflexivity|]. exists e. split; reflexivity.
Qed.

(** Without interrupts the loop is [main_loop]. *)
Lemma main_loop_on_enter (session : list (pystr * displays)) (state : AgentState) :
  main_loop_on self (map (fun line => (enter (fst line), snd line)) session) state
  = main_loop self session state.
Proof.
  revert state. induction session as [|[typed env] rest IH]; intros state.
  - reflexivity.
  - cbn [map main_loop_on main_loop fst snd main_iteration_on].
    now rewrite IH.
Qed.

Lemma with_user_message_fields (state : AgentState) (typed : pystr) :
  conversation_id (with_user_message state typed) = conversation_id state
  /\ intent (with_user_message state typed) = intent state
  /\ document_type (with_user_message state typed) = document_type state
  /\ document_number (with_user_message state typed) = document_number state
  /\ eps (with_user_message state typed) = eps state
  /\ medical_specialty (with_user_message state typed) = medical_specialty state
  /\ is_conversation_complete (with_user_message state typed)
     = is_conversation_complete state.
Proof. repeat split. Qed.

Lemma with_user_message_nonempty (state : AgentState) (typed : pystr) :
  messages (with_user_message state typed) <> [].
Proof.
  unfold with_user_message. cbn [with_messages messages].
  intros H. apply app_eq_nil in H as [_ H]. discriminate.
Qed.

(** How a turn on a non-empty history can fail: the classification call
    raised, and nothing was saved. *)
Lemma turn_raised (state : AgentState) (e : Exception) :
  messages state <> [] ->
  result_of (process_conversation self state) = Raised e ->
  save_calls (calls_of (process_conversation self state)) = 0
  /\ exists history last,
       messages state = history ++ [last]
       /\ invoke (llm self) (classification_request (lower (content last))) = Raised e.
Proof.
  intros Hne. destruct (route_entry_cases state) as [Hroute | Hroute].
  - rewrite (process_conversation_classified self state Hroute).
    destruct (_clasificar_intencion self state) as [calls [classified|e']] eqn:Hc.
    + intros H. apply bind_raised in H as [H | [a [Ha H]]]; [discriminate|].
      cbn [result_of snd] in Ha. injection Ha as <-.
      assert (Hclassified : result_of (_clasificar_intencion self state)
                            = Returned classified) by now rewrite Hc.
      apply clasificar_intencion_effect in Hclassified as [label [_ ->]].
      apply node_raised in H as [[H _] | [Hname _]]; [contradiction|].
      destruct (route_after_classification_cases (with_intent state label))
        as [R | [R | R]]; rewrite R in Hname; discriminate.
    + cbn [bind result_of calls_of fst snd]. intros [= ->].
      assert (Hraised : result_of (node_action self clasificar_intencion state) = Raised e)
        by (cbn [node_action]; now rewrite Hc).
      split.
      * pose proof (node_failure_saves_nothing self _ state e Hraised) as Hs.
        cbn [node_action] in Hs. now rewrite Hc in Hs.
      * apply node_raised in Hraised as [[H _] | [_ H]]; [contradiction | exact H].
  - assert (Hdirect : _route_entry state <> clasificar_intencion)
      by (destruct Hroute as [H | [H | H]]; rewrite H; discriminate).
    rewrite (process_conversation_direct self state Hdirect). intros H.
    apply node_raised in H as [[H _] | [Hname _]]; contradiction.
Qed.

(** X24. What an iteration does to the history: nothing (a command or a
    blank line, and then the agent is not called and the state is the
    same); or the user's message alone is appended (the agent raised, or
    Finalize ran); or the user's message and one agent reply. *)
Theorem main_iteration_history (env : displays) (state : AgentState) (typed : pystr) :
  (state_after (main_iteration self env state typed) = state
   /\ calls_made (main_iteration self env state typed) = [])
  \/ messages (state_after (main_iteration self env state typed))
     = messages state ++ [Message HumanMessage (strip typed)]
  \/ exists reply,
       messages (state_after (main_iteration self env state typed))
       = messages state ++ [Message HumanMessage (strip typed); Message AIMessage reply].
Proof.
  destruct (main_iteration_cases env state typed)
    as [(_ & Hstate & Hcalls & _) | [(_ & e & _ & ->) | (_ & final & Hturn & -> & _)]].
  - left. now split.
  - right; left. reflexivity.
  - apply turn_cases in Hturn as [(Hdirect & Hnode & _) | (Hroute & H)].
    + apply node_messages in Hnode.
      destruct (route_entry_cases (with_user_message state typed))
        as [R | [R | [R | R]]]; [contradiction | | |]; rewrite R in Hnode.
      * right; left. exact Hnode.
      * right; right. destruct Hnode as [reply ->]. exists reply.
        unfold with_user_message. cbn [with_messages messages].
        now rewrite <- app_assoc.
      * right; right. destruct Hnode as [reply ->]. exists reply.
        unfold with_user_message. cbn [with_messages messages].
        now rewrite <- app_assoc.
    + destruct H as (label & name & _ & Hname & _ & Hnode & _).
      apply node_messages in Hnode. right; right.
      assert (Hreply : exists reply,
                 messages final
                 = messages (with_intent (with_user_message state typed) label)
                   ++ [Message AIMessage reply])
        by (destruct Hname as [<- | [<- | [<- | []]]]; exact Hnode).
      destruct Hreply as [reply ->]. exists reply.
      unfold with_user_message. cbn [with_intent with_messages messages].
      now rewrite <- app_assoc.
Qed.

(** X25. When the agent raises in an iteration, the loop goes on with the
    user's message already in the history and every field as before;
    nothing was saved, so the store does not hold that message.  The only
    such failure is the classification call raising. *)
Theorem main_iteration_agent_failure
  (env : displays) (state : AgentState) (typed : pystr) (e : Exception) :
  is_turn typed = true ->
  result_of (process_conversation self (with_user_message state typed)) = Raised e ->
  state_after (main_iteration self env state typed) = with_user_message state typed
  /\ shown (main_iteration self env state typed) = [print_error e]
  /\ control_after (main_iteration self env state typed) = Continue
  /\ save_calls (calls_made (main_iteration self env state typed)) = 0
  /\ invoke (llm self) (classification_request (lower (strip typed))) = Raised e.
Proof.
  intros Hturn Hraised.
  destruct (main_iteration_cases env state typed)
    as [(Hno & _) | [(_ & e' & He' & ->) | (_ & final & Hfinal & _)]].
  - rewrite Hno in Hturn. discriminate.
  - rewrite Hraised in He'. injection He' as <-.
    destruct (turn_raised _ e (with_user_message_nonempty state typed) Hraised)
      as (Hsaves & history & last & Hlast & Hllm).
    cbn [state_after shown control_after calls_made]. repeat split; try assumption.
    unfold with_user_message in Hlast. cbn [with_messages messages] in Hlast.
    apply app_inj_tail in Hlast as [_ <-]. exact Hllm.
  - rewrite Hraised in Hfinal. discriminate.
Qed.

(** X26. When the loop ends.  A [KeyboardInterrupt] in the [try] block
    always ends it, at the prompt or later, and whether or not the
    statistics display raises in the handler.  Without an interrupt the
    loop ends exactly when the statistics display does not raise and the
    line is a quit word, or is sent to the agent and the agent returns a
    complete state. *)
Theorem main_iteration_break (env : displays) (state : AgentState) (key : keyboard) :
  control_after (main_iteration_on self env state key) = Break
  <-> match key with
      | enter typed =>
          mostrar_estadisticas_raises env = None
          /\ (mem (lower (strip typed)) [str "salir"; str "exit"; str "quit"] = true
              \/ (is_turn typed = true
                  /\ exists final_state,
                       result_of (process_conversation self (with_user_message state typed))
                       = Returned final_state
                       /\ state_after (main_iteration_on self env state key) = final_state
                       /\ is_conversation_complete final_state = true))
      | ctrl_c_at_prompt => True
      | ctrl_c_after _ _ => True
      end.
Proof.
  destruct key as [typed | | typed at_]; cbn [main_iteration_on];
    [| split; intros _; [exact I | reflexivity] ..].
  split.
  - intros Hbreak.
    destruct (main_iteration_cases env state typed)
      as [(_ & _ & _ & Hquit)
         | [(_ & e & _ & Hit) | (Hturn & final & Hres & Hstate & _ & Hiff)]].
    + destruct (Hquit Hbreak) as [Hword Hstats]. split; [exact Hstats | now left].
    + rewrite Hit in Hbreak. discriminate.
    + apply Hiff in Hbreak as [Hcomplete Hstats].
      split; [exact Hstats|]. right. split; [exact Hturn|].
      exists final. repeat split; assumption.
  - intros [Hstats [Hquit | (Hturn & final & Hres & _ & Hcomplete)]].
    + unfold main_iteration, after_display. rewrite Hquit, Hstats. reflexivity.
    + destruct (main_iteration_cases env state typed)
        as [(Hno & _)
           | [(_ & e & He & _) | (_ & final' & Hres' & _ & _ & Hiff)]].
      * rewrite Hturn in Hno. discriminate.
      * rewrite Hres in He. discriminate.
      * rewrite Hres in Hres'. injection Hres' as <-.
        apply Hiff. split; assumption.
Qed.

(** A turn keeps the identifier and a stored document, and extends the
    history. *)
Lemma turn_frame (state state' : AgentState) :
  result_of (process_conversation self state) = Returned state' ->
  conversation_id state' = conversation_id state
  /\ (exists later, messages state' = messages state ++ later)
  /\ (is_set (document_number state) = true ->
      document_type state' = document_type state
      /\ document_number state' = document_number state).
Proof.
  intros H. apply turn_cases in H as [(_ & Hnode & _) | (_ & H)].
  - split; [|split].
    + exact (node_keeps_conversation_id self _ state state' Hnode).
    + apply node_messages in Hnode.
      destruct (_route_entry state);
        lazymatch type of Hnode with
        | ex _ => destruct Hnode as [reply ->]; eexists; reflexivity
        | _ => rewrite Hnode; exists []; now rewrite app_nil_r
        end.
    + intros Hset. apply (node_keeps_document self _ state state' Hnode). now right.
  - destruct H as (label & name & _ & _ & _ & Hnode & _).
    split; [|split].
    + exact (node_keeps_conversation_id self _ _ state' Hnode).
    + apply node_messages in Hnode.
      destruct name;
        lazymatch type of Hnode with
        | ex _ => destruct Hnode as [reply ->]; eexists; reflexivity
        | _ => rewrite Hnode; exists []; now rewrite app_nil_r
        end.
    + intros Hset. apply (node_keeps_document self _ _ state' Hnode). now right.
Qed.

Lemma main_iteration_frame (env : displays) (state : AgentState) (typed : pystr) :
  conversation_id (state_after (main_iteration self env state typed))
  = conversation_id state
  /\ (exists later,
        messages (state_after (main_iteration self env state typed))
        = messages state ++ later)
  /\ (is_set (document_number state) = true ->
      document_type (state_after (main_iteration self env state typed))
      = document_type state
      /\ document_number (state_after (main_iteration self env state typed))
         = document_number state).
Proof.
  destruct (main_iteration_cases env state typed)
    as [(_ & -> & _) | [(_ & e & _ & ->) | (_ & final & Hturn & -> & _)]].
  - split; [reflexivity|]. split; [exists []; now rewrite app_nil_r | auto].
  - cbn [state_after]. split; [reflexivity|].
    split; [eexists; reflexivity | auto].
  - destruct (turn_frame _ _ Hturn) as (Hid & [later Hlater] & Hdoc).
    split; [exact Hid|]. split; [|exact Hdoc].
    rewrite Hlater. unfold with_user_message. cbn [with_messages messages].
    eexists. now rewrite <- app_assoc.
Qed.

Ltac stage_written :=
  right; eexists; (split; [|reflexivity]); unfold known_stages; cbn [In];
  first [ left; reflexivity
        | right; left; reflexivity
        | do 2 right; left; reflexivity
        | do 3 right; left; reflexivity
        | do 4 right; left; reflexivity ].

Lemma known_stage (stage : pystr) :
  In stage known_stages ->
  exists known, In known known_stages /\ Some stage = Some known.
Proof. intros H. now exists stage. Qed.

Lemma digit_not_empty (s : pystr) : any_isdigit s = true -> is_set (Some s) = true.
Proof. destruct s; [discriminate | reflexivity]. Qed.

Lemma found_not_empty (value message : pystr) :
  negb (PyStr.eqb (lower value) (str "unknown"))
  && negb (PyStr.eqb (strip value) (str ""))
  && any_in (split (lower value)) (lower message) = true ->
  is_set (Some value) = true.
Proof.
  intros H. destruct (found_counts value message H) as (Hne & _).
  destruct value; [contradiction | reflexivity].
Qed.

(** A node keeps the shape, the appointment node when it runs on a state
    with a known intent and a document number. *)
Lemma node_well_formed (name : node) (state state' : AgentState) :
  result_of (node_action self name state) = Returned state' ->
  (name = procesar_cita ->
   has_known_intent state /\ is_set (document_number state) = true) ->
  well_formed state -> well_formed state'.
Proof.
  intros H Hcita (Hintent & Hstage & Hnumber & Happointment).
  destruct name; cbn [node_action] in H.
  - apply clasificar_intencion_effect in H as [label [Hlabel ->]].
    assert (Hknown : has_known_intent (with_intent state label))
      by (exists label; split; [assumption | reflexivity]).
    repeat split; try assumption.
    + right. exact Hknown.
    + destruct Happointment as [Hnone | (_ & Hrest)]; [left; exact Hnone|].
      right. split; [exact Hknown | exact Hrest].
  - revert H. unfold _procesar_saludo; run. intros [= <-].
    repeat split; try assumption. stage_written.
  - revert H. unfold _procesar_documento, last_message, py_not. rewrite truthy_get.
    destruct (rev (messages state)) as [|last rest]; run; [discriminate|].
    remember (is_set (document_number state)) as stored eqn:Hset in |- *.
    symmetry in Hset. destruct stored; cbn [negb truthy].
    { run. intros [= <-]. repeat split; try assumption. stage_written. }
    assert (Hnone : eps state = None /\ medical_specialty state = None)
      by (destruct Happointment as [Hnone | (_ & Hdoc & _)];
          [exact Hnone | rewrite Hset in Hdoc; discriminate]).
    destruct (pide_documento state (content last)); run.
    { intros [= <-]. repeat split; try assumption; try stage_written.
      left. exact Hnone. }
    destruct (invoke_IdentificacionPaciente (llm self) _) as [d|e]; run.
    2: { intros [= <-]. repeat split; try assumption. stage_written. }
    destruct (documento_valido d) eqn:Hvalid; run; intros [= <-].
    2: { repeat split; try assumption. stage_written. }
    repeat split; try assumption; try stage_written.
    + right. cbn [with_messages with_conversation_stage with_document_number
                  document_number].
      apply digit_not_empty. unfold documento_valido in Hvalid.
      now apply andb_true_iff in Hvalid as [_ Hvalid].
    + left. exact Hnone.
  - specialize (Hcita eq_refl). destruct Hcita as [Hknown Hdoc].
    revert H. unfold _procesar_cita, last_message.
    destruct (rev (messages state)) as [|last rest]; run; [discriminate|].
    destruct (invoke_DatosCita (llm self) _) as [d|e]; run.
    2: { intros [= <-]. repeat split; assumption. }
    destruct (eps_found d (lower (content last))) eqn:Heps;
      destruct (specialty_found d (lower (content last))) eqn:Hspecialty;
      cbn [andb]; run; intros [= <-]; try (repeat split; assumption).
    repeat split; try assumption; try stage_written.
    right. repeat split; try assumption.
    + exact (found_not_empty _ _ Heps).
    + exact (found_not_empty _ _ Hspecialty).
  - revert H. unfold _finalizar_conversacion; run. intros [= <-].
    repeat split; assumption.
  - revert H. unfold _manejar_otro_tema; run. intros [= <-].
    repeat split; assumption.
Qed.

Lemma with_intent_well_formed (state : AgentState) (label : pystr) :
  In label intent_labels -> well_formed state -> well_formed (with_intent state label).
Proof.
  intros Hlabel (Hintent & Hstage & Hnumber & Happointment).
  assert (Hknown : has_known_intent (with_intent state label))
    by (exists label; split; [assumption | reflexivity]).
  repeat split; try assumption.
  - right. exact Hknown.
  - destruct Happointment as [Hnone | (_ & Hrest)]; [left; exact Hnone|].
    right. split; [exact Hknown | exact Hrest].
Qed.

(** A turn keeps the shape. *)
Lemma turn_well_formed (state state' : AgentState) :
  result_of (process_conversation self state) = Returned state' ->
  well_formed state -> well_formed state'.
Proof.
  intros H Hwf. apply turn_cases in H as [(Hdirect & Hnode & _) | (Hroute & H)].
  - apply (node_well_formed _ state state' Hnode); [|exact Hwf].
    intros Hcita. apply route_entry_procesar_cita_inv in Hcita as (Hintent & Hdoc & _).
    split; [|exact Hdoc].
    destruct Hwf as ([Hnone | Hknown] & _); [|exact Hknown].
    rewrite Hnone in Hintent. discriminate.
  - destruct H as (label & name & Hlabel & Hname & _ & Hnode & _).
    apply (node_well_formed _ _ state' Hnode).
    + intros ->. destruct Hname as [H | [H | [H | []]]]; discriminate.
    + now apply with_intent_well_formed.
Qed.

Lemma well_formed_agree (state : AgentState) :
  well_formed state ->
  (is_conversation_complete state = true <-> _route_entry state = finalizar_conversacion).
Proof.
  intros (_ & _ & _ & Happointment). split; [|apply route_finalizar_complete].
  unfold is_conversation_complete. intros Hcomplete.
  destruct Happointment as [[Heps _] | (Hknown & Hdoc & Heps & Hspecialty)].
  - rewrite Heps in Hcomplete. cbn in Hcomplete.
    now rewrite andb_false_r in Hcomplete.
  - apply route_entry_all_set; try assumption. now apply known_intent_set.
Qed.

(** X30. The states a session reaches are well formed: starting from the
    state [main] builds, whatever is typed and whatever fails, every
    iteration starts from a state whose intent is unset or one of the
    three labels, whose stage is unset or one of the five names the nodes
    write, whose stored document number is not empty, and whose EPS and
    specialty are unset together or stored together with a document.  On
    such states the completion predicate and entry routing agree: the
    state is complete exactly when it is routed to Finalize. *)
Theorem main_loop_reaches_well_formed_states
  (session : list (pystr * displays)) (cid : pystr) :
  Forall (fun step =>
            well_formed (fst step)
            /\ (is_conversation_complete (fst step) = true
                <-> _route_entry (fst step) = finalizar_conversacion))
         (main_loop self session (initial_state cid)).
Proof.
  assert (Hloop : forall state, well_formed state ->
            Forall (fun step => well_formed (fst step)) (main_loop self session state)).
  { induction session as [|[typed env] rest IH]; intros state Hwf;
      cbn [main_loop]; constructor; [exact Hwf|].
    destruct (control_after (main_iteration self env state typed)); [constructor|].
    apply IH.
    destruct (main_iteration_cases env state typed)
      as [(_ & -> & _) | [(_ & e & _ & ->) | (_ & final & Hturn & -> & _)]].
    - exact Hwf.
    - exact Hwf.
    - exact (turn_well_formed _ final Hturn Hwf). }
  eapply Forall_impl; [|apply Hloop].
  - intros step Hwf. split; [exact Hwf | now apply well_formed_agree].
  - unfold well_formed, initial_state. cbn. repeat split; auto.
Qed.

(** X27. In the loop the Finalize node is dead code as long as the
    statistics display does not raise: every iteration starts from a state
    the completion predicate rejects, so no line typed is routed to
    Finalize. *)
Theorem main_loop_never_finalizes
  (session : list (pystr * displays)) (state : AgentState) :
  is_conversation_complete state = false ->
  Forall (fun line => mostrar_estadisticas_raises (snd line) = None) session ->
  Forall (fun step =>
            is_conversation_complete (fst step) = false
            /\ forall typed,
                 _route_entry (with_user_message (fst step) typed)
                 <> finalizar_conversacion)
         (main_loop self session state).
Proof.
  intros Hincomplete Hstats. revert state Hincomplete.
  induction Hstats as [|[typed env] rest Henv _ IH]; intros state Hincomplete;
    cbn [main_loop]; constructor.
  - cbn [fst]. split; [exact Hincomplete|].
    intros typed' Hroute. apply route_finalizar_complete in Hroute.
    unfold with_user_message, is_conversation_complete in *.
    cbn [with_messages document_number eps medical_specialty] in Hroute. congruence.
  - cbn [snd] in Henv.
    destruct (control_after (main_iteration self env state typed)) eqn:Hcontrol;
      [constructor|].
    apply IH.
    destruct (main_iteration_cases env state typed)
      as [(_ & -> & _) | [(_ & e & _ & ->) | (_ & final & _ & Hstate & _ & Hiff)]].
    + exact Hincomplete.
    + exact Hincomplete.
    + rewrite Hstate.
      destruct (is_conversation_complete final) eqn:Hfinal; [|reflexivity].
      assert (Hbreak : control_after (main_iteration self env state typed) = Break)
        by (apply Hiff; now split).
      congruence.
Qed.

(** X28. Across a whole session, whatever is typed and whatever fails,
    every iteration starts from a state with the identifier the session
    began with and a history that extends the initial one; a document
    stored at the start is never changed. *)
Theorem main_loop_history_grows
  (session : list (pystr * displays)) (state : AgentState) :
  Forall (fun step =>
            conversation_id (fst step) = conversation_id state
            /\ (exists later, messages (fst step) = messages state ++ later)
            /\ (is_set (document_number state) = true ->
                document_type (fst step) = document_type state
                /\ document_number (fst step) = document_number state))
         (main_loop self session state).
Proof.
  revert state. induction session as [|[typed env] rest IH]; intros state;
    cbn [main_loop]; constructor.
  - cbn [fst]. split; [reflexivity|].
    split; [exists []; now rewrite app_nil_r | auto].
  - destruct (control_after (main_iteration self env state typed)); [constructor|].
    destruct (main_iteration_frame env state typed) as (Hid & [later Hlater] & Hdoc).
    eapply Forall_impl; [|apply IH].
    intros [head it]. cbn [fst]. intros (Hid' & [later' Hlater'] & Hdoc').
    split; [congruence|]. split.
    + exists (later ++ later'). rewrite Hlater', Hlater. now rewrite <- app_assoc.
    + intros Hset. destruct (Hdoc Hset) as [Htype Hnumber].
      destruct Hdoc' as [Htype' Hnumber']; [now rewrite Hnumber|].
      split; congruence.
Qed.

End MainTheorems.

(** ** Concrete conversations *)

#[local] Existing Instance ascii_tables.

(** Claim C1 fails as stated: with document number, EPS and specialty set
    and [intent] unset, entry routing selects the classifier, not
    Finalize. *)
Lemma route_entry_unset_intent_not_finalize :
  intent resumed_without_intent = None
  /\ is_set (document_number resumed_without_intent) = true
  /\ is_set (eps resumed_without_intent) = true
  /\ is_set (medical_specialty resumed_without_intent) = true
  /\ _route_entry resumed_without_intent = clasificar_intencion
  /\ _route_entry resumed_without_intent <> finalizar_conversacion.
Proof. repeat split. discriminate. Qed.

Lemma route_entry_finalize_witness :
  _route_entry completed_state = finalizar_conversacion.
Proof.
  apply (route_entry_finalize_when_all_set
           (Some (str "c-1")) (Some (str "agendar_cita")) (Some (str "CC"))
           (Some (str "1020304050")) (Some (str "Sanitas")) (Some (str "Dermatologia"))
           [] (Some (str "greeting"))); reflexivity.
Defined.

Lemma complete_but_not_routed_witness :
  is_conversation_complete empty_eps_state = true
  /\ _route_entry empty_eps_state <> finalizar_conversacion.
Proof.
  apply (complete_but_not_routed_to_finalize empty_eps_state);
    [discriminate | discriminate | discriminate | right; left; reflexivity | reflexivity].
Defined.

Lemma clasificar_intencion_llm_down_witness :
  _clasificar_intencion agent_llm_down first_turn_ambiguous
  = ([llm_invoke (classification_request (str "que hora es"))],
     Raised (RuntimeError (str "503 service unavailable"))).
Proof.
  exact (clasificar_intencion_propagates_llm_exception agent_llm_down first_turn_ambiguous
           [Message AIMessage initial_greeting] (Message HumanMessage (str "Que hora es"))
           (RuntimeError (str "503 service unavailable")) eq_refl eq_refl eq_refl).
Defined.


Lemma nodes_append_witness :
  appends_at_most_one_agent_message first_turn_ambiguous
    (with_intent first_turn_ambiguous (str "otro"))
  /\ exists state',
       result_of (_clasificar_intencion agent_answers first_turn_ambiguous) = Returned state'.
Proof.
  destruct (nodes_append_at_most_one_agent_message agent_answers
              (_clasificar_intencion agent_answers) first_turn_ambiguous
              (or_introl eq_refl)) as [Hprefix Hreturns].
  split.
  - apply Hprefix. reflexivity.
  - apply Hreturns; [discriminate|].
    intros prompt. eexists. reflexivity.
Defined.

Lemma procesar_documento_failed_witness :
  exists state',
    result_of (_procesar_documento agent_llm_down document_turn) = Returned state'
    /\ document_type state' = document_type document_turn
    /\ document_number state' = document_number document_turn
    /\ conversation_stage state' = Some (str "requesting_document")
    /\ messages state'
       = messages document_turn ++ [Message AIMessage documento_no_identificado_text].
Proof.
  apply (procesar_documento_failed_extraction agent_llm_down document_turn
           [Message AIMessage solicitar_documento_text]
           (Message HumanMessage (str "CC 1020304050")));
    [reflexivity | reflexivity | reflexivity | exact I].
Defined.

Lemma procesar_documento_successful_witness :
  (exists state',
     result_of (_procesar_documento agent_answers document_turn) = Returned state'
     /\ document_type state' = Some (str "CC")
     /\ document_number state' = Some (str "1020304050")
     /\ conversation_stage state' = Some (str "collecting_document")
     /\ messages state'
        = messages document_turn
          ++ [Message AIMessage
                (documento_registrado_text
                   (IdentificacionPaciente.mk (str "CC") (str "1020304050")))]
     /\ is_conversation_complete state' = false)
  /\ (exists state',
        result_of (_procesar_documento agent_answers document_turn_with_eps)
        = Returned state'
        /\ document_type state' = Some (str "CC")
        /\ document_number state' = Some (str "1020304050")
        /\ conversation_stage state' = Some (str "collecting_document")
        /\ eps state' = Some (str "Sura")
        /\ medical_specialty state' = Some (str "Cardiologia")).
Proof.
  assert (Htype : ~ is_unknown (str "CC")) by discriminate.
  assert (Hnumber : ~ is_unknown (str "1020304050")) by discriminate.
  assert (Hdigit : exists c, In c (str "1020304050") /\ isdigit c = true).
  { exists 49%N. split; [left; reflexivity | reflexivity]. }
  assert (Hllm : invoke_IdentificacionPaciente (llm agent_answers)
                   (documento_request (str "CC 1020304050"))
                 = Returned (IdentificacionPaciente.mk (str "CC") (str "1020304050")))
    by reflexivity.
  split.
  - assert (Hpide : pide_documento document_turn (str "CC 1020304050") = false)
      by (vm_compute; reflexivity).
    destruct (procesar_documento_successful_extraction agent_answers document_turn
                [Message AIMessage solicitar_documento_text]
                (Message HumanMessage (str "CC 1020304050"))
                (IdentificacionPaciente.mk (str "CC") (str "1020304050"))
                eq_refl eq_refl Hpide Hllm Htype Hnumber Hdigit)
      as (state' & Hreturned & Hdt & Hdn & Hstage & Hmessages & _ & _ & _ & _ & Hcomplete).
    exists state'. repeat split; try assumption.
    apply Hcomplete; reflexivity.
  - assert (Hpide : pide_documento document_turn_with_eps (str "CC 1020304050") = false)
      by (vm_compute; reflexivity).
    destruct (procesar_documento_successful_extraction agent_answers
                document_turn_with_eps
                [Message AIMessage solicitar_documento_text]
                (Message HumanMessage (str "CC 1020304050"))
                (IdentificacionPaciente.mk (str "CC") (str "1020304050"))
                eq_refl eq_refl Hpide Hllm Htype Hnumber Hdigit)
      as (state' & Hreturned & Hdt & Hdn & Hstage & _ & _ & _ & Heps & Hspecialty & _).
    exists state'. repeat split; assumption.
Defined.

Lemma procesar_cita_anti_hallucination_witness :
  counts_as_found (str "Dermatologia") (str "necesito dermatologia")
  /\ eps_found (DatosCita.mk (str "Sanitas") (str "Dermatologia"))
               (lower (str "necesito dermatologia")) = false
  /\ exists state' also_missing,
       result_of (_procesar_cita agent_answers appointment_turn) = Returned state'
       /\ eps state' = eps appointment_turn
       /\ medical_specialty state' = medical_specialty appointment_turn
       /\ conversation_stage state' = conversation_stage appointment_turn
       /\ messages state'
          = messages appointment_turn
            ++ [Message AIMessage
                  (cita_faltante_text
                     (str "Necesito que me indiques "
                      ++ join (str ", y ") (str "tu EPS" :: also_missing)
                      ++ str "."))].
Proof.
  destruct (procesar_cita_anti_hallucination agent_answers appointment_turn
              [Message AIMessage (documento_registrado_text
                                    (IdentificacionPaciente.mk (str "CC") (str "1020304050")))]
              (Message HumanMessage (str "necesito dermatologia"))
              (DatosCita.mk (str "Sanitas") (str "Dermatologia"))
              eq_refl eq_refl) as (_ & Hspecialty & _ & Heps).
  split; [apply Hspecialty; reflexivity|].
  apply Heps. intros token Htoken.
  vm_compute in Htoken. destruct Htoken as [<- | []]. reflexivity.
Defined.

(** ** The scenarios of the specification, run *)

Example str_decodes_utf8 :
  str "sí 😊" = [115; 237; 32; 128522]%N.
Proof. reflexivity. Qed.

Example split_on_whitespace :
  split (str "  Medicina   General ") = [str "Medicina"; str "General"].
Proof. reflexivity. Qed.

Example strip_both_ends :
  strip (str "  agendar_cita ") = str "agendar_cita".
Proof. reflexivity. Qed.

Example contains_is_substring_search :
  contains (str "cita") (str "una cita medica") = true
  /\ contains (str "si") (str "necesito ayuda") = true
  /\ contains (str "si") (str "no") = false.
Proof. repeat split. Qed.

Example join_missing_info :
  join (str ", y ") [str "tu EPS"; str "la especialidad médica"]
  = str "tu EPS, y la especialidad médica".
Proof. vm_compute. reflexivity. Qed.

(** "Hola" on a first turn is a greeting: the model is not asked, the
    greeting node answers and sets the stage. *)
Example hola_is_greeted :
  _clasificar_intencion agent_llm_down hola_turn
  = ([db_save_conversation (with_intent hola_turn (str "saludo"))],
     Returned (with_intent hola_turn (str "saludo")))
  /\ _route_entry hola_turn = clasificar_intencion
  /\ _route_after_classification (with_intent hola_turn (str "saludo")) = procesar_saludo
  /\ exists state',
       result_of (_procesar_saludo agent_llm_down (with_intent hola_turn (str "saludo")))
       = Returned state'
       /\ conversation_stage state' = Some (str "greeting")
       /\ messages state' = messages hola_turn ++ [Message AIMessage saludo_text].
Proof. repeat split. eexists. repeat split. Qed.

(** An EPS and a specialty that both occur in the message complete the
    conversation. *)
Example sanitas_dermatologia_completes :
  _route_entry sanitas_turn = procesar_cita
  /\ exists state',
       result_of (_procesar_cita agent_answers sanitas_turn) = Returned state'
       /\ eps state' = Some (str "Sanitas")
       /\ medical_specialty state' = Some (str "Dermatologia")
       /\ conversation_stage state' = Some (str "completed")
       /\ is_conversation_complete state' = true
       /\ _route_entry state' = finalizar_conversacion.
Proof. split; [reflexivity|]. eexists. repeat split. Qed.

(** ** The further properties at concrete conversations *)

Lemma clasificar_intencion_label_witness :
  exists label,
    with_intent hola_turn (str "saludo") = with_intent hola_turn label
    /\ ((label = str "saludo"
         /\ _route_after_classification (with_intent hola_turn (str "saludo"))
            = procesar_saludo)
        \/ (label = str "agendar_cita"
            /\ _route_after_classification (with_intent hola_turn (str "saludo"))
               = procesar_documento)
        \/ (label = str "otro"
            /\ _route_after_classification (with_intent hola_turn (str "saludo"))
               = manejar_otro_tema)).
Proof.
  exact (clasificar_intencion_label_is_dispatched agent_llm_down hola_turn
           (with_intent hola_turn (str "saludo")) eq_refl).
Defined.

Lemma clasificar_intencion_keyword_witness :
  _clasificar_intencion agent_llm_down cita_turn
  = ([db_save_conversation (with_intent cita_turn (str "agendar_cita"))],
     Returned (with_intent cita_turn (str "agendar_cita"))).
Proof.
  exact (clasificar_intencion_keyword_wins agent_llm_down cita_turn
           [Message AIMessage initial_greeting]
           (Message HumanMessage (str "Hola, quiero una cita")) eq_refl eq_refl).
Defined.

Lemma clasificar_intencion_asks_model_witness :
  filter is_llm_call (calls_of (_clasificar_intencion agent_answers first_turn_ambiguous))
  = [llm_invoke (classification_request (str "que hora es"))].
Proof.
  exact (clasificar_intencion_asks_model_iff_no_rule agent_answers first_turn_ambiguous
           [Message AIMessage initial_greeting] (Message HumanMessage (str "Que hora es"))
           eq_refl).
Defined.

Lemma procesar_documento_asks_model_witness :
  filter is_llm_call (calls_of (_procesar_documento agent_answers document_turn))
  = [llm_structured_IdentificacionPaciente (documento_request (str "CC 1020304050"))].
Proof.
  exact (procesar_documento_asks_model_iff_needed agent_answers document_turn
           [Message AIMessage solicitar_documento_text]
           (Message HumanMessage (str "CC 1020304050")) eq_refl).
Defined.

Lemma procesar_documento_keeps_stored_witness :
  exists state',
    _procesar_documento agent_answers appointment_turn
    = ([db_save_conversation state'], Returned state')
    /\ document_type state' = Some (str "CC")
    /\ document_number state' = Some (str "1020304050")
    /\ conversation_stage state' = Some (str "requesting_appointment_data")
    /\ messages state'
       = messages appointment_turn ++ [Message AIMessage solicitar_cita_text].
Proof.
  exact (procesar_documento_keeps_stored_document agent_answers appointment_turn
           [Message AIMessage (documento_registrado_text
                                 (IdentificacionPaciente.mk (str "CC") (str "1020304050")))]
           (Message HumanMessage (str "necesito dermatologia")) eq_refl eq_refl).
Defined.

Lemma procesar_documento_valid_number_witness :
  is_set (document_number document_turn) = false
  /\ exists number,
       document_number document_stored = Some number
       /\ (exists c, In c number /\ isdigit c = true)
       /\ ~ is_unknown number.
Proof.
  apply (procesar_documento_stores_only_valid_numbers agent_answers document_turn
           document_stored); [reflexivity | discriminate].
Defined.

Lemma procesar_cita_extractor_failure_witness :
  _procesar_cita agent_llm_down appointment_turn
  = ([llm_structured_DatosCita (cita_request (str "necesito dermatologia"));
      db_save_conversation
        (with_messages appointment_turn
           (messages appointment_turn ++ [Message AIMessage cita_problema_text]))],
     Returned
       (with_messages appointment_turn
          (messages appointment_turn ++ [Message AIMessage cita_problema_text]))).
Proof.
  exact (procesar_cita_extractor_failure agent_llm_down appointment_turn
           [Message AIMessage (documento_registrado_text
                                 (IdentificacionPaciente.mk (str "CC") (str "1020304050")))]
           (Message HumanMessage (str "necesito dermatologia"))
           (RuntimeError (str "503 service unavailable")) eq_refl eq_refl).
Defined.

Lemma nodes_frame_witness :
  conversation_id document_stored = conversation_id document_turn
  /\ eps document_stored = eps document_turn
  /\ medical_specialty document_stored = medical_specialty document_turn
  /\ (intent document_stored = intent document_turn \/ has_known_intent document_stored).
Proof.
  assert (Hreturned : result_of (node_action agent_answers procesar_documento document_turn)
                      = Returned document_stored) by reflexivity.
  destruct (nodes_frame agent_answers procesar_documento document_turn document_stored
              Hreturned) as (Hid & _ & Happointment & Hintent).
  destruct Happointment as [Heps Hspecialty]; [discriminate|].
  repeat split; assumption.
Defined.

Lemma process_conversation_reply_witness :
  exists state',
    result_of (process_conversation agent_answers sanitas_turn) = Returned state'
    /\ ((_route_entry sanitas_turn = finalizar_conversacion /\ state' = sanitas_turn)
        \/ (_route_entry sanitas_turn <> finalizar_conversacion
            /\ exists reply,
                 messages state' = messages sanitas_turn ++ [Message AIMessage reply])).
Proof.
  eexists. split; [reflexivity|].
  apply (process_conversation_reply agent_answers sanitas_turn). reflexivity.
Defined.

Lemma process_conversation_frozen_fields_witness :
  exists state',
    result_of (process_conversation agent_answers appointment_turn) = Returned state'
    /\ conversation_id state' = conversation_id appointment_turn
    /\ document_type state' = document_type appointment_turn
    /\ document_number state' = document_number appointment_turn.
Proof.
  edestruct (process_conversation_frozen_fields agent_answers appointment_turn)
    as (Hid & Hdocument & _); [reflexivity|].
  destruct Hdocument as [Htype Hnumber]; [reflexivity|].
  eexists. split; [reflexivity|]. repeat split; assumption.
Defined.

Lemma process_conversation_sets_intent_witness :
  exists state',
    result_of (process_conversation agent_answers first_turn_ambiguous) = Returned state'
    /\ is_set (intent state') = true
    /\ has_known_intent state'.
Proof.
  edestruct (process_conversation_sets_intent agent_answers first_turn_ambiguous)
    as [Hset Hknown]; [reflexivity|].
  eexists. split; [reflexivity|].
  split; [exact Hset|]. apply Hknown. left. reflexivity.
Defined.

Lemma process_conversation_calls_witness :
  exists state',
    result_of (process_conversation agent_answers first_turn_ambiguous) = Returned state'
    /\ ends_with_save (calls_of (process_conversation agent_answers first_turn_ambiguous))
         state'
    /\ llm_calls (calls_of (process_conversation agent_answers first_turn_ambiguous)) <= 2
    /\ 1 <= save_calls (calls_of (process_conversation agent_answers first_turn_ambiguous))
       <= 2.
Proof.
  eexists. split; [reflexivity|].
  apply (process_conversation_calls agent_answers first_turn_ambiguous). reflexivity.
Defined.

Lemma process_conversation_completes_witness :
  exists state',
    result_of (process_conversation agent_answers sanitas_turn) = Returned state'
    /\ eps state' = Some (str "Sanitas")
    /\ medical_specialty state' = Some (str "Dermatologia")
    /\ conversation_stage state' = Some (str "completed")
    /\ is_conversation_complete state' = true
    /\ _route_entry state' = finalizar_conversacion.
Proof.
  exact (process_conversation_completes agent_answers sanitas_turn []
           (Message HumanMessage (str "Sanitas, Dermatologia"))
           (DatosCita.mk (str "Sanitas") (str "Dermatologia"))
           eq_refl eq_refl eq_refl eq_refl eq_refl).
Defined.

Lemma process_conversation_yes_after_greeting_witness :
  exists state',
    result_of (process_conversation agent_llm_down yes_after_greeting) = Returned state'
    /\ intent state' = Some (str "agendar_cita")
    /\ conversation_stage state' = Some (str "requesting_document")
    /\ document_number state' = document_number yes_after_greeting
    /\ messages state'
       = messages yes_after_greeting ++ [Message AIMessage solicitar_documento_text]
    /\ llm_calls (calls_of (process_conversation agent_llm_down yes_after_greeting)) = 0.
Proof.
  exact (process_conversation_yes_after_greeting agent_llm_down yes_after_greeting
           [Message AIMessage saludo_text] (Message HumanMessage (str "Dale"))
           eq_refl eq_refl eq_refl eq_refl).
Defined.

Lemma save_conversation_round_trip_witness :
  snd (Db.save_conversation true fixed_clock store_with_other document_turn) = true
  /\ exists row,
       Db.get_conversation_by_id
         (fst (Db.save_conversation true fixed_clock store_with_other document_turn))
         (str "c-1")
       = Some row
       /\ Db.holds row document_turn
       /\ Db.c_created_at row = fixed_clock 0
       /\ Db.c_updated_at row = fixed_clock 1.
Proof.
  exact (save_conversation_round_trip fixed_clock store_with_other document_turn
           (str "c-1") eq_refl).
Defined.

Lemma save_conversation_frame_witness :
  Db.get_conversation_by_id
    (fst (Db.save_conversation true fixed_clock store_with_other document_turn))
    (str "c-2")
  = Db.get_conversation_by_id store_with_other (str "c-2")
  /\ Db.stored_messages
       (fst (Db.save_conversation true fixed_clock store_with_other document_turn))
       (str "c-2")
     = Db.stored_messages store_with_other (str "c-2").
Proof.
  apply (save_conversation_frame true fixed_clock store_with_other document_turn
           (str "c-2")).
  intros H. vm_compute in H. discriminate.
Defined.

Lemma save_conversation_replaces_messages_witness :
  Db.stored_messages
    (fst (Db.save_conversation true fixed_clock store_with_other other_conversation))
    (str "c-2")
  = map (fun msg => (match type_ msg with
                     | HumanMessage => str "human"
                     | _ => str "ai"
                     end, content msg))
        (messages other_conversation).
Proof.
  exact (save_conversation_replaces_messages fixed_clock store_with_other
           other_conversation (str "c-2") eq_refl).
Defined.

Lemma save_conversation_one_row_each_witness :
  Db.one_row_each
    (fst (Db.save_conversation true fixed_clock store_with_other other_conversation))
  /\ Db.total_conversations
       (fst (Db.save_conversation true fixed_clock store_with_other other_conversation))
     = match Db.get_conversation_by_id store_with_other (str "c-2") with
       | Some _ => Db.total_conversations store_with_other
       | None => S (Db.total_conversations store_with_other)
       end.
Proof.
  apply (save_conversation_one_row_each fixed_clock store_with_other other_conversation
           (str "c-2")); [reflexivity|].
  unfold Db.one_row_each. vm_compute.
  constructor; [intros [] | constructor].
Defined.

Lemma process_conversation_is_persisted_witness :
  exists state',
    result_of (process_conversation agent_answers sanitas_turn) = Returned state'
    /\ (exists row,
          Db.get_conversation_by_id
            (persist_all (fun _ => fixed_clock) 0 store_with_other
               (calls_of (process_conversation agent_answers sanitas_turn)))
            (str "c-1")
          = Some row
          /\ Db.holds row state')
    /\ Db.stored_messages
         (persist_all (fun _ => fixed_clock) 0 store_with_other
            (calls_of (process_conversation agent_answers sanitas_turn)))
         (str "c-1")
       = map (fun msg => (Db.message_type_of msg, content msg)) (messages state').
Proof.
  eexists. split; [reflexivity|].
  apply (process_conversation_is_persisted agent_answers (fun _ => fixed_clock) 0
           store_with_other sanitas_turn _ (str "c-1")); reflexivity.
Defined.

Lemma main_iteration_agent_failure_witness :
  state_after (main_iteration agent_llm_down quiet (initial_state (str "c-1"))
                 (str "Que hora es"))
  = with_user_message (initial_state (str "c-1")) (str "Que hora es")
  /\ shown (main_iteration agent_llm_down quiet (initial_state (str "c-1"))
              (str "Que hora es"))
     = [print_error (RuntimeError (str "503 service unavailable"))]
  /\ control_after (main_iteration agent_llm_down quiet (initial_state (str "c-1"))
                      (str "Que hora es"))
     = Continue
  /\ save_calls (calls_made (main_iteration agent_llm_down quiet
                               (initial_state (str "c-1")) (str "Que hora es")))
     = 0
  /\ invoke (llm agent_llm_down)
       (classification_request (lower (strip (str "Que hora es"))))
     = Raised (RuntimeError (str "503 service unavailable")).
Proof.
  exact (main_iteration_agent_failure agent_llm_down quiet (initial_state (str "c-1"))
           (str "Que hora es") (RuntimeError (str "503 service unavailable"))
           eq_refl eq_refl).
Defined.

Lemma main_iteration_break_witness :
  control_after (main_iteration_on agent_llm_down stats_down
                   (initial_state (str "c-1")) ctrl_c_at_prompt) = Break
  /\ control_after (main_iteration_on agent_llm_down stats_down
                      (initial_state (str "c-1"))
                      (ctrl_c_after (str "Que hora es")
                         {| calls_done := 1; shown_done := 0;
                            state_reached := after_append |})) = Break
  /\ control_after (main_iteration_on agent_llm_down quiet
                      (initial_state (str "c-1")) (enter (str " Salir "))) = Break
  /\ control_after (main_iteration_on agent_llm_down stats_down
                      (initial_state (str "c-1")) (enter (str " Salir "))) <> Break.
Proof.
  split; [|split; [|split]].
  - exact (proj2 (main_iteration_break agent_llm_down stats_down
                    (initial_state (str "c-1")) ctrl_c_at_prompt) I).
  - exact (proj2 (main_iteration_break agent_llm_down stats_down
                    (initial_state (str "c-1"))
                    (ctrl_c_after (str "Que hora es")
                       {| calls_done := 1; shown_done := 0;
                          state_reached := after_append |})) I).
  - apply (proj2 (main_iteration_break agent_llm_down quiet
                    (initial_state (str "c-1")) (enter (str " Salir ")))).
    split; [reflexivity | left; reflexivity].
  - intros Hbreak.
    apply (proj1 (main_iteration_break agent_llm_down stats_down
                    (initial_state (str "c-1")) (enter (str " Salir ")))) in Hbreak.
    destruct Hbreak as [Hstats _]. discriminate Hstats.
Defined.

Lemma main_loop_never_finalizes_witness :
  Forall (fun step =>
            is_conversation_complete (fst step) = false
            /\ forall typed,
                 _route_entry (with_user_message (fst step) typed)
                 <> finalizar_conversacion)
         (main_loop agent_answers short_session (initial_state (str "c-1"))).
Proof.
  apply (main_loop_never_finalizes agent_answers short_session (initial_state (str "c-1")));
    [reflexivity | repeat constructor].
Defined.
